(** * Purser: signing request normalisation and dispatch

    A shallow embedding of the static methods of the software wallet
    ([software/staticMethods.js]) and of the hardware wallet (the second
    [staticMethods.js], which talks to the device through
    [payloadListener]), with the properties of their dispatch and error
    handling.

    JavaScript values are untyped, so the embedding carries a small universe
    of values [jsval].  Objects are finite maps from property names to
    values; [Object.assign] is a right-biased union.  An [async] function is
    a computation that leaves a trace of the calls it makes to the outside
    world (device channel, logger, signer callback) and ends
    in the settlement of the promise it returns. *)

From Stdlib Require Import ZArith String Ascii HexString.
From stdpp Require Import gmap strings list fin_maps pretty.

Set Warnings "-register-all".
Open Scope string_scope.

(** ** JavaScript values *)

(** Numbers are the integer-valued ones (the only ones the safe-integer
    validator is documented to let through); [VBig] is an instance of the
    [bigNumber] / BN.js class; [VArr] is an array of numbers, which is all
    the sources build (a derivation path array). *)
Inductive jsval : Type :=
  | VUndefined
  | VNull
  | VBool (b : bool)
  | VNum (n : Z)
  | VBig (n : Z)
  | VStr (s : string)
  | VArr (l : list Z)
  | VObj (m : gmap string jsval).

(** A synchronous call either returns or throws a value. *)
Inductive completion (A : Type) : Type :=
  | Normal (a : A)
  | Throw (e : jsval).
Arguments Normal {A} a.
Arguments Throw {A} e.

#[global] Instance completion_ret : MRet completion := @Normal.
#[global] Instance completion_bind : MBind completion := λ A B f c,
  match c with
  | Normal a => f a
  | Throw e => Throw e
  end.

(** A promise is fulfilled, rejected, or never settles (the device channel
    may wait for the user for ever). *)
Inductive settlement (A : Type) : Type :=
  | Fulfilled (a : A)
  | Rejected (e : jsval)
  | Pending.
Arguments Fulfilled {A} a.
Arguments Rejected {A} e.
Arguments Pending {A}.

(** [new Error(message)]: only the [message] property is observed. *)
Definition new_Error (message : string) : jsval :=
  VObj {[ "message" := VStr message ]}.

(** The [TypeError] the engine raises when a property or method is looked
    up on [undefined] or [null]; its text is the engine's. *)
Definition TypeError_nullish (property : string) : jsval :=
  new_Error ("Cannot read property '" +:+ property +:+ "' of undefined").

(** [o.k] on an object held as a map: a missing property is [undefined]. *)
Definition prop (o : gmap string jsval) (k : string) : jsval :=
  default VUndefined (o !! k).

(** [v.k] on any value (also what destructuring [const { k } = v] does). *)
Definition get_property (v : jsval) (k : string) : completion jsval :=
  match v with
  | VUndefined | VNull => Throw (TypeError_nullish k)
  | VObj m => Normal (prop m k)
  | _ => Normal VUndefined
  end.

(** [Object.assign({}, template, fields)]: the later source wins. *)
Definition Object_assign (template fields : gmap string jsval)
  : gmap string jsval :=
  fields ∪ (template ∪ ∅).

(** [v === s] for a string [s]. *)
Definition strict_eq_string (v : jsval) (s : string) : bool :=
  match v with
  | VStr s' => bool_decide (s' = s)
  | _ => false
  end.

(** *** Strings *)

(** [n.toString(16)] of an integer: lower-case digits, a minus sign for a
    negative number, no prefix. *)
Definition hex_of_Z (n : Z) : string :=
  match n with
  | Z0 => "0"
  | Zpos p => HexString.Raw.of_pos p ""
  | Zneg p => "-" +:+ HexString.Raw.of_pos p ""
  end.

Fixpoint join_comma (l : list string) : string :=
  match l with
  | [] => ""
  | [x] => x
  | x :: rest => x +:+ "," +:+ join_comma rest
  end.

(** The method call [v.toString(...)], with [render] the rendering of an
    integer in the radix asked for.  Strings, booleans, arrays and plain
    objects ignore the radix. *)
Definition toStringWith (render : Z → string) (v : jsval)
  : completion string :=
  match v with
  | VUndefined | VNull => Throw (TypeError_nullish "toString")
  | VBool b => Normal (if b then "true" else "false")
  | VNum n | VBig n => Normal (render n)
  | VStr s => Normal s
  | VArr l => Normal (join_comma (pretty <$> l))
  | VObj _ => Normal "[object Object]"
  end.

(** [v.toString(16)] *)
Definition toString16 (v : jsval) : completion string :=
  toStringWith hex_of_Z v.

(** A value spliced in a template literal. *)
Definition template_string (v : jsval) : string :=
  match v with
  | VUndefined => "undefined"
  | VNull => "null"
  | VBool b => if b then "true" else "false"
  | VNum n | VBig n => pretty n
  | VStr s => s
  | VArr l => join_comma (pretty <$> l)
  | VObj _ => "[object Object]"
  end.

(** [s.substring(0, 2) === '0x' ? s.slice(2) : s] *)
Definition strip_0x (s : string) : string :=
  if bool_decide (String.substring 0 2 s = "0x")
  then String.substring 2 (String.length s - 2) s
  else s.

(** [needle] occurs in [hay]. *)
Definition contains (needle hay : string) : Prop :=
  ∃ before after, hay = before +:+ needle +:+ after.

(** The number a string of hexadecimal digits stands for. *)
Definition hexDigit (c : ascii) : option N :=
  let n := N_of_ascii c in
  if ((48 <=? n) && (n <=? 57))%N then Some (n - 48)%N
  else if ((97 <=? n) && (n <=? 102))%N then Some (n - 87)%N
  else if ((65 <=? n) && (n <=? 70))%N then Some (n - 55)%N
  else None.

Fixpoint hexValueFrom (acc : N) (s : string) : option N :=
  match s with
  | EmptyString => Some acc
  | String c rest =>
      match hexDigit c with
      | Some d => hexValueFrom (16 * acc + d)%N rest
      | None => None
      end
  end.

Definition hexValue (s : string) : option N := hexValueFrom 0 s.

(** ** Asynchronous functions *)

(** What a call leaves behind in the outside world. *)
Inductive event : Type :=
  | PayloadListener (payload : gmap string jsval)
  | Warning (message : string)
  | Callback (argument : gmap string jsval).

(** The body of an [async] function: the calls made so far, in order, and
    how the returned promise settles. *)
Definition async (A : Type) : Type := (list event * settlement A)%type.

Module Async.

Definition ret {A} (a : A) : async A := ([], Fulfilled a).

Definition throw {A} (e : jsval) : async A := ([], Rejected e).

Definition bind {A B} (m : async A) (f : A → async B) : async B :=
  match m with
  | (evs, Fulfilled a) => let '(evs', r) := f a in ((evs ++ evs')%list, r)
  | (evs, Rejected e) => (evs, Rejected e)
  | (evs, Pending) => (evs, Pending)
  end.

(** A synchronous step inside the body: a throw rejects the promise. *)
Definition lift {A} (c : completion A) : async A :=
  match c with
  | Normal a => ret a
  | Throw e => throw e
  end.

(** A synchronous call to the outside world that returns nothing. *)
Definition perform (ev : event) : async unit := ([ev], Fulfilled tt).

(** A call to the outside world whose promise is then awaited. *)
Definition call {A} (ev : event) (answer : settlement A) : async A :=
  ([ev], answer).

(** [try { body } catch (caughtError) { handler }] *)
Definition try_catch {A} (body : async A) (handler : jsval → async A)
  : async A :=
  match body with
  | (evs, Rejected e) => let '(evs', r) := handler e in ((evs ++ evs')%list, r)
  | settled => settled
  end.

End Async.

#[global] Instance async_ret : MRet async := @Async.ret.
#[global] Instance async_bind : MBind async := λ A B f m, Async.bind m f.

Definition trace {A} (m : async A) : list event := fst m.
Definition result {A} (m : async A) : settlement A := snd m.

(** ** Normalizers of [core/normalizers] *)

(** Modelled from the spec: [multipleOfTwoHexValueNormalizer] lives in the
    normalizers module, which is not among the sources.  "Multiple-of-two hex
    normalizer: pads a raw hex string (without prefix) to even length"; the
    call site adds "Eg: '3' to be '03', `12c` to be `012c`". *)
Definition multipleOfTwoHexValueNormalizer (hexValue : string) : string :=
  if Nat.even (String.length hexValue) then hexValue else "0" +:+ hexValue.

(** Modelled from the spec: [hexSequenceNormalizer] lives in the normalizers
    module, which is not among the sources.  "Hex-sequence normalizer:
    ensures `0x` prefix and even-length hex digit count (left-pads with a
    zero if odd)". *)
Definition hexSequenceNormalizer (hexString : string) : string :=
  "0x" +:+ multipleOfTwoHexValueNormalizer (strip_0x hexString).

(** ** The software wallet: [software/staticMethods.js] *)

Module Software.

(** What [transactionObjectValidator] hands back: "the validated field set",
    every field present and of its documented type (big numbers, numbers
    and strings). *)
Record ValidatedTransaction : Type := {
  gasPrice : Z;
  gasLimit : Z;
  chainId : Z;
  nonce : Z;
  to : string;
  value : Z;
  inputData : string;
}.

(** The imports of the module that are not among the sources: the helpers of
    [core] and of [ethers/utils], and the message table. *)
Class Imports : Type := {
  bigNumberify : string → completion jsval;
  transactionObjectValidator :
    gmap string jsval → completion ValidatedTransaction;
  addressNormalizer : string → completion string;
  objectToErrorString : gmap string jsval → string;
  messages_cannotSign : string;
}.

Section StaticMethods.
Context `{Imports}.

(** The object literal handed to [callback]; its property values are
    computed in source order, and each helper may throw. *)
Definition callbackArgument (validated : ValidatedTransaction)
  : completion (gmap string jsval) :=
  gasPrice' ← bigNumberify (pretty (gasPrice validated));
  gasLimit' ← bigNumberify (pretty (gasLimit validated));
  to' ← addressNormalizer (to validated);
  value' ← bigNumberify (pretty (value validated));
  mret ({[ "gasPrice" := gasPrice';
           "gasLimit" := gasLimit';
           "chainId" := VNum (chainId validated);
           "nonce" := VNum (nonce validated);
           "to" := VStr to';
           "value" := value';
           "data" := VStr (hexSequenceNormalizer (inputData validated)) ]}
        : gmap string jsval).

(** The message of the error the [catch] block builds. *)
Definition cannotSignMessage (transactionObject : gmap string jsval)
    (caughtMessage : jsval) : string :=
  messages_cannotSign +:+ " " +:+ objectToErrorString transactionObject
    +:+ " " +:+ template_string caughtMessage.

(** [signTransaction({ callback, ...transactionObject })] *)
Definition signTransaction
    (callback : gmap string jsval → settlement string)
    (transactionObject : gmap string jsval) : async string :=
  validated ← Async.lift (transactionObjectValidator transactionObject);
  Async.try_catch
    (argument ← Async.lift (callbackArgument validated);
     signedTransaction ← Async.call (Callback argument) (callback argument);
     mret (hexSequenceNormalizer signedTransaction))
    (λ caughtError,
       caughtMessage ← Async.lift (get_property caughtError "message");
       Async.throw
         (new_Error (cannotSignMessage transactionObject caughtMessage))).

End StaticMethods.
End Software.

(** ** The hardware wallet: the device [staticMethods.js] *)

Module Hardware.

(** The imports of the module that are not among the sources: the device
    channel [payloadListener], the validators and normalizers, the
    [bip32-path] parser ([fromString(path, true).toPathArray()]), the
    [ethers] address check, the default gas price [bigNumber(10).toGwei()],
    the message and error tables and the payload templates. *)
Class Imports : Type := {
  (* payloadListener({ payload }), as a function of the payload *)
  payloadListener : gmap string jsval → settlement jsval;
  bigNumber_10_toGwei : jsval;
  derivationPathValidator : jsval → completion unit;
  safeIntegerValidator : jsval → completion unit;
  bigNumberValidator : jsval → completion unit;
  derivationPathNormalizer : jsval → completion string;
  fromString_toPathArray : string → completion (list Z);
  validateAddress : jsval → completion string;
  messages_userSignTxCancel : string;
  STD_ERRORS_CANCEL_TX_SIGN : string;
  PAYLOAD_SIGNTX : gmap string jsval;
  PAYLOAD_SIGNMSG : gmap string jsval;
  PAYLOAD_VERIFYMSG : gmap string jsval;
}.

(** A destructuring default [{ k = d }]: used when the property is
    [undefined], which is also what an absent property reads as. *)
Definition with_default (d v : jsval) : jsval :=
  match v with
  | VUndefined => d
  | _ => v
  end.

Section StaticMethods.
Context `{Imports}.

(** The destructured parameters of [signTransaction], defaults applied. *)
Definition gasPrice_of (transactionObject : gmap string jsval) : jsval :=
  with_default bigNumber_10_toGwei (prop transactionObject "gasPrice").
Definition nonce_of (transactionObject : gmap string jsval) : jsval :=
  with_default (VNum 0) (prop transactionObject "nonce").

(** The four validator calls that open [signTransaction], in order. *)
Definition validate (transactionObject : gmap string jsval)
  : completion unit :=
  derivationPathValidator (prop transactionObject "path");;
  bigNumberValidator (gasPrice_of transactionObject);;
  safeIntegerValidator (prop transactionObject "chainId");;
  safeIntegerValidator (nonce_of transactionObject).

(** [fromString(derivationPathNormalizer(path), true).toPathArray()] *)
Definition pathArray (path : jsval) : completion (list Z) :=
  normalized ← derivationPathNormalizer path;
  fromString_toPathArray normalized.

(** The object literal merged onto [PAYLOAD_SIGNTX]. *)
Definition transactionFields (address_n : list Z) (gas_price nonce : string)
    (transactionObject : gmap string jsval) : gmap string jsval :=
  {[ "address_n" := VArr address_n;
     "gas_price" := VStr (multipleOfTwoHexValueNormalizer gas_price);
     "gas_limit" := prop transactionObject "gasLimit";
     "chain_id" := prop transactionObject "chainId";
     "nonce" := VStr (multipleOfTwoHexValueNormalizer nonce);
     "to" := prop transactionObject "to";
     "value" := prop transactionObject "value";
     "data" := prop transactionObject "data" ]}.

(** [modifiedPayloadObject]: property values are computed in source
    order. *)
Definition modifiedPayloadObject (transactionObject : gmap string jsval)
  : completion (gmap string jsval) :=
  address_n ← pathArray (prop transactionObject "path");
  gas_price ← toString16 (gasPrice_of transactionObject);
  nonce ← toString16 (nonce_of transactionObject);
  mret (Object_assign PAYLOAD_SIGNTX
          (transactionFields address_n gas_price nonce transactionObject)).

(** The [catch] block of [signTransaction]. *)
Definition cancelHandler (caughtError : jsval) : async jsval :=
  message ← Async.lift (get_property caughtError "message");
  (if strict_eq_string message STD_ERRORS_CANCEL_TX_SIGN
   then Async.perform (Warning messages_userSignTxCancel)
   else mret tt);;
  mret VUndefined.

(** [signTransaction({ path, gasPrice = bigNumber(10).toGwei(), gasLimit,
    chainId, nonce = 0, to, value, data } = {})] *)
Definition signTransaction (transactionObject : gmap string jsval)
  : async jsval :=
  Async.lift (validate transactionObject);;
  payload ← Async.lift (modifiedPayloadObject transactionObject);
  Async.try_catch
    (signedTransaction ←
       Async.call (PayloadListener payload) (payloadListener payload);
     mret signedTransaction)
    cancelHandler.

(** The payload of [signMessage]. *)
Definition messagePayload (messageObject : gmap string jsval)
  : completion (gmap string jsval) :=
  path ← pathArray (prop messageObject "path");
  mret (Object_assign PAYLOAD_SIGNMSG
          ({[ "path" := VArr path;
              "message" := prop messageObject "message" ]}
           : gmap string jsval)).

(** [signMessage({ path, message })] *)
Definition signMessage (messageObject : gmap string jsval) : async jsval :=
  Async.lift (derivationPathValidator (prop messageObject "path"));;
  payload ← Async.lift (messagePayload messageObject);
  response ← Async.call (PayloadListener payload) (payloadListener payload);
  signedMessage ← Async.lift (get_property response "signature");
  mret signedMessage.

(** The payload of [verifyMessage], from the validated address. *)
Definition verifyPayload (validatedAddress : string)
    (messageObject : gmap string jsval) : gmap string jsval :=
  Object_assign PAYLOAD_VERIFYMSG
    {[ "address" := VStr (strip_0x validatedAddress);
       "message" := prop messageObject "message";
       "signature" := prop messageObject "signature" ]}.

(** [verifyMessage({ address, message, signature })] *)
Definition verifyMessage (messageObject : gmap string jsval) : async jsval :=
  validatedAddress ←
    Async.lift (validateAddress (prop messageObject "address"));
  let payload := verifyPayload validatedAddress messageObject in
  response ← Async.call (PayloadListener payload) (payloadListener payload);
  isMessageValid ← Async.lift (get_property response "success");
  mret isMessageValid.

End StaticMethods.
End Hardware.

(** ** Stand-ins for the imports

    Small implementations of the imported helpers, in the manner of the
    mocks of the test suite; the general statements below are run on
    them. *)

Module Mock.

Definition derivationPath : string := "m/44'/60'/0'/0/0".

Definition derivationPathValidator (path : jsval) : completion unit :=
  match path with
  | VStr s =>
      if bool_decide (s = derivationPath) then Normal tt
      else Throw (new_Error "Derivation path is not valid")
  | _ => Throw (new_Error "Derivation path is not valid")
  end.

Definition safeIntegerValidator (integer : jsval) : completion unit :=
  match integer with
  | VNum n =>
      if bool_decide (0 ≤ n ≤ 9007199254740991)%Z then Normal tt
      else Throw (new_Error "Integer is not safe")
  | _ => Throw (new_Error "Value is not a number")
  end.

Definition bigNumberValidator (bigNumber : jsval) : completion unit :=
  match bigNumber with
  | VBig _ => Normal tt
  | _ => Throw (new_Error "Value is not a big number")
  end.

Definition derivationPathNormalizer (path : jsval) : completion string :=
  match path with
  | VStr s => Normal s
  | _ => Throw (TypeError_nullish "split")
  end.

Definition fromString_toPathArray (path : string) : completion (list Z) :=
  if bool_decide (path = derivationPath)
  then Normal [2147483692; 2147483708; 2147483648; 0; 0]%Z
  else Throw (new_Error "Not a valid path").


Definition validateAddress (address : jsval) : completion string :=
  match address with
  | VStr s => Normal s
  | _ => Throw (new_Error "invalid address")
  end.

Definition cancelled : string := "Action cancelled by user".

(** The hardware imports around a given device channel. *)
Definition hardware (payloadListener : gmap string jsval → settlement jsval)
  : Hardware.Imports :=
  {| Hardware.payloadListener := payloadListener;
     Hardware.bigNumber_10_toGwei := VBig 10000000000;
     Hardware.derivationPathValidator := derivationPathValidator;
     Hardware.safeIntegerValidator := safeIntegerValidator;
     Hardware.bigNumberValidator := bigNumberValidator;
     Hardware.derivationPathNormalizer := derivationPathNormalizer;
     Hardware.fromString_toPathArray := fromString_toPathArray;
     Hardware.validateAddress := validateAddress;
     Hardware.messages_userSignTxCancel :=
       "User cancelled signing the transaction";
     Hardware.STD_ERRORS_CANCEL_TX_SIGN := cancelled;
     Hardware.PAYLOAD_SIGNTX :=
       {[ "type" := VStr "signtx"; "requiredFirmware" := VStr "1.4.0" ]};
     Hardware.PAYLOAD_SIGNMSG :=
       {[ "type" := VStr "signmsg"; "requiredFirmware" := VStr "1.4.0" ]};
     Hardware.PAYLOAD_VERIFYMSG :=
       {[ "type" := VStr "verifymsg"; "requiredFirmware" := VStr "1.4.0" ]} |}.

(** Device channels: one that fails, one on which the user cancels, one
    that answers. *)
Definition disconnected (_ : gmap string jsval) : settlement jsval :=
  Rejected (new_Error "Device disconnected").
Definition userCancels (_ : gmap string jsval) : settlement jsval :=
  Rejected (new_Error cancelled).
Definition answers (response : gmap string jsval) (_ : gmap string jsval)
  : settlement jsval :=
  Fulfilled (VObj response).

(** A transaction and a message for the device. *)
Definition transaction : gmap string jsval :=
  {[ "path" := VStr derivationPath;
     "gasPrice" := VBig 300;
     "gasLimit" := VStr "5208";
     "chainId" := VNum 1;
     "nonce" := VNum 3;
     "to" := VStr "3953cF4eA75a62c6fCD0b3988b1984265006a4CC";
     "value" := VStr "01";
     "data" := VStr "00" ]}.

Definition message : gmap string jsval :=
  {[ "path" := VStr derivationPath;
     "message" := VStr "hello";
     "address" := VStr "0x3953cF4eA75a62c6fCD0b3988b1984265006a4CC";
     "signature" := VStr "c2lnbmF0dXJl" ]}.

(** The payloads these give rise to. *)
Definition pathArray : list Z := [2147483692; 2147483708; 2147483648; 0; 0]%Z.

Definition transactionPayload : gmap string jsval :=
  {[ "type" := VStr "signtx";
     "requiredFirmware" := VStr "1.4.0";
     "address_n" := VArr pathArray;
     "gas_price" := VStr "012c";
     "gas_limit" := VStr "5208";
     "chain_id" := VNum 1;
     "nonce" := VStr "03";
     "to" := VStr "3953cF4eA75a62c6fCD0b3988b1984265006a4CC";
     "value" := VStr "01";
     "data" := VStr "00" ]}.

Definition messagePayload : gmap string jsval :=
  {[ "type" := VStr "signmsg";
     "requiredFirmware" := VStr "1.4.0";
     "path" := VArr pathArray;
     "message" := VStr "hello" ]}.

(** The software imports: a validator that fills in every field it is not
    given, and pass-through helpers. *)
Definition validated : Software.ValidatedTransaction :=
  {| Software.gasPrice := 9000000000;
     Software.gasLimit := 21000;
     Software.chainId := 1;
     Software.nonce := 0;
     Software.to := "0x3953cF4eA75a62c6fCD0b3988b1984265006a4CC";
     Software.value := 1;
     Software.inputData := "0x00" |}.

Definition software : Software.Imports :=
  {| Software.bigNumberify := λ s, Normal (VStr s);
     Software.transactionObjectValidator := λ _, Normal validated;
     Software.addressNormalizer := λ s, Normal s;
     Software.objectToErrorString := λ _, "{chainId: 1}";
     Software.messages_cannotSign := "Cannot sign the transaction" |}.

Definition boom (_ : gmap string jsval) : settlement string :=
  Rejected (new_Error "boom").
Definition signs (_ : gmap string jsval) : settlement string :=
  Fulfilled "f86c".

End Mock.

(** ** The software wallet: [signMessage] *)

Module SoftwareMessage.

(** The imports [signMessage] adds to those of [signTransaction]: the
    message validator of [core/validators] and one more entry of the message
    table. *)
Class Imports : Type := {
  messageValidator : jsval → completion unit;
  messages_cannotSignMessage : string;
}.

Section StaticMethods.
Context `{Imports}.

(** The message of the error the [catch] block builds:
    [`${messages.cannotSignMessage}: ${message} Error: ${caughtError.message}`] *)
Definition cannotSignMessageText (message caughtMessage : jsval) : string :=
  messages_cannotSignMessage +:+ ": " +:+ template_string message
    +:+ " Error: " +:+ template_string caughtMessage.

(** [signMessage({ message, callback })].  The callback is called, not
    awaited, and its result is taken as the signature string.  The first
    component lists the arguments the callback has been called with. *)
Definition signMessage (callback : jsval → completion string)
    (message : jsval) : list jsval * settlement string :=
  match messageValidator message with
  | Throw e => ([], Rejected e)
  | Normal _ =>
      match callback message with
      | Normal messageSignature =>
          ([message], Fulfilled (hexSequenceNormalizer messageSignature))
      | Throw caughtError =>
          match get_property caughtError "message" with
          | Normal caughtMessage =>
              ([message],
               Rejected (new_Error
                           (cannotSignMessageText message caughtMessage)))
          | Throw e => ([message], Rejected e)
          end
      end
  end.

End StaticMethods.
End SoftwareMessage.

(** ** More stand-ins *)

Module MockMore.

(** Hardware imports whose validators let everything through, so that the
    helpers behind them are reached with any value. *)
Definition laxHardware
    (payloadListener : gmap string jsval → settlement jsval)
  : Hardware.Imports :=
  {| Hardware.payloadListener := payloadListener;
     Hardware.bigNumber_10_toGwei := VBig 10000000000;
     Hardware.derivationPathValidator := λ _, Normal tt;
     Hardware.safeIntegerValidator := λ _, Normal tt;
     Hardware.bigNumberValidator := λ _, Normal tt;
     Hardware.derivationPathNormalizer := Mock.derivationPathNormalizer;
     Hardware.fromString_toPathArray := Mock.fromString_toPathArray;
     Hardware.validateAddress := Mock.validateAddress;
     Hardware.messages_userSignTxCancel :=
       "User cancelled signing the transaction";
     Hardware.STD_ERRORS_CANCEL_TX_SIGN := Mock.cancelled;
     Hardware.PAYLOAD_SIGNTX := {[ "type" := VStr "signtx" ]};
     Hardware.PAYLOAD_SIGNMSG := {[ "type" := VStr "signmsg" ]};
     Hardware.PAYLOAD_VERIFYMSG := {[ "type" := VStr "verifymsg" ]} |}.

(** Device channels that reject with [undefined], and that answer with
    [undefined]. *)
Definition rejectsUndefined (_ : gmap string jsval) : settlement jsval :=
  Rejected VUndefined.
Definition answersUndefined (_ : gmap string jsval) : settlement jsval :=
  Fulfilled VUndefined.

(** Software imports whose validator refuses, and whose address normalizer
    refuses. *)
Definition refusing : Software.Imports :=
  {| Software.bigNumberify := λ s, Normal (VStr s);
     Software.transactionObjectValidator :=
       λ _, Throw (new_Error "Transaction is not valid");
     Software.addressNormalizer := λ s, Normal s;
     Software.objectToErrorString := λ _, "{}";
     Software.messages_cannotSign := "Cannot sign the transaction" |}.

Definition badAddress : Software.Imports :=
  {| Software.bigNumberify := λ s, Normal (VStr s);
     Software.transactionObjectValidator := λ _, Normal Mock.validated;
     Software.addressNormalizer := λ _, Throw (new_Error "Address is not valid");
     Software.objectToErrorString := λ _, "{}";
     Software.messages_cannotSign := "Cannot sign the transaction" |}.

(** A signer callback that throws a string. *)
Definition throwsString (_ : gmap string jsval) : settlement string :=
  Rejected (VStr "boom").

(** The imports of [signMessage]: the empty message is refused. *)
Definition message : SoftwareMessage.Imports :=
  {| SoftwareMessage.messageValidator := λ m,
       match m with
       | VStr "" => Throw (new_Error "Message is empty")
       | VStr _ => Normal tt
       | _ => Throw (new_Error "Message is not a string")
       end;
     SoftwareMessage.messages_cannotSignMessage := "Cannot sign the message" |}.

Definition signsMessage (_ : jsval) : completion string := Normal "abc".
Definition failsMessage (_ : jsval) : completion string :=
  Throw (new_Error "boom").

End MockMore.

(** * Properties *)

(** Runs the plumbing of an [async] body, leaving the calls to the imports
    and the values they work on untouched. *)
Ltac async_run :=
  cbn [mbind mret async_bind async_ret completion_bind completion_ret
       Async.bind Async.ret Async.throw Async.lift Async.call Async.perform
       Async.try_catch app fst snd trace result].

(** ** Strings *)

Lemma append_assoc (a b c : string) : (a +:+ b) +:+ c = a +:+ (b +:+ c).
Proof.
  induction a as [|x a IH]; [reflexivity |].
  change (String x ((a +:+ b) +:+ c) = String x (a +:+ (b +:+ c))).
  now rewrite IH.
Qed.

Lemma append_empty_r (a : string) : a +:+ "" = a.
Proof.
  induction a as [|x a IH]; [reflexivity |].
  change (String x (a +:+ "") = String x a). now rewrite IH.
Qed.

Lemma contains_head (a rest : string) : contains a (a +:+ rest).
Proof. exists "", rest. reflexivity. Qed.

Lemma contains_skip (a needle hay : string) :
  contains needle hay → contains needle (a +:+ hay).
Proof.
  intros (before & after & ->). exists (a +:+ before), after.
  now rewrite append_assoc.
Qed.

Lemma contains_refl (a : string) : contains a a.
Proof. exists "", "". now rewrite append_empty_r. Qed.

Example hex_of_Z_300 : hex_of_Z 300 = "12c".
Proof. reflexivity. Qed.

Example multipleOfTwoHexValueNormalizer_3 :
  multipleOfTwoHexValueNormalizer "3" = "03"
  ∧ multipleOfTwoHexValueNormalizer "12c" = "012c"
  ∧ multipleOfTwoHexValueNormalizer "ff" = "ff".
Proof. repeat split. Qed.

Example hexSequenceNormalizer_odd :
  hexSequenceNormalizer "0xabc" = "0x0abc"
  ∧ hexSequenceNormalizer "abc" = "0x0abc"
  ∧ hexSequenceNormalizer "0xabcd" = "0xabcd".
Proof. repeat split. Qed.

Lemma multipleOfTwoHexValueNormalizer_even (hexValue : string) :
  Nat.even (String.length (multipleOfTwoHexValueNormalizer hexValue)) = true.
Proof.
  unfold multipleOfTwoHexValueNormalizer.
  destruct (Nat.even (String.length hexValue)) eqn:E; [exact E |].
  change (String.length ("0" +:+ hexValue)) with (S (String.length hexValue)).
  rewrite Nat.even_succ, <- Nat.negb_even, E. reflexivity.
Qed.

Lemma multipleOfTwoHexValueNormalizer_pads (hexValue : string) :
  multipleOfTwoHexValueNormalizer hexValue = hexValue
  ∨ multipleOfTwoHexValueNormalizer hexValue = "0" +:+ hexValue.
Proof.
  unfold multipleOfTwoHexValueNormalizer.
  destruct (Nat.even (String.length hexValue)); [now left | now right].
Qed.

Lemma multipleOfTwoHexValueNormalizer_value (digits : string) :
  hexValue (multipleOfTwoHexValueNormalizer digits) = hexValue digits.
Proof.
  destruct (multipleOfTwoHexValueNormalizer_pads digits) as [-> | ->];
    reflexivity.
Qed.

Lemma substring_whole (s : string) :
  String.substring 0 (String.length s) s = s.
Proof.
  induction s as [|c s IH]; [reflexivity |].
  change (String c (String.substring 0 (String.length s) s) = String c s).
  now rewrite IH.
Qed.

Lemma strip_0x_prefixed (rest : string) : strip_0x ("0x" +:+ rest) = rest.
Proof.
  unfold strip_0x.
  assert (String.substring 0 2 ("0x" +:+ rest) = "0x") as ->
    by (destruct rest; reflexivity).
  rewrite bool_decide_eq_true_2 by reflexivity.
  change (String.length ("0x" +:+ rest) - 2) with (String.length rest - 0).
  rewrite Nat.sub_0_r.
  change (String.substring 2 (String.length rest) ("0x" +:+ rest))
    with (String.substring 0 (String.length rest) rest).
  apply substring_whole.
Qed.

Lemma substring_0x_prefix (s : string) :
  String.substring 0 2 s = "0x" → ∃ rest, s = "0x" +:+ rest.
Proof.
  destruct s as [|c1 [|c2 rest]]; [discriminate | discriminate |].
  intros Hsub. exists rest.
  change (String.substring 0 2 (String c1 (String c2 rest)))
    with (String c1 (String c2 (String.substring 0 0 rest))) in Hsub.
  now injection Hsub as -> ->.
Qed.

Lemma strip_0x_unprefixed (s : string) :
  String.substring 0 2 s ≠ "0x" → strip_0x s = s.
Proof.
  intros Hne. unfold strip_0x. now rewrite bool_decide_eq_false_2.
Qed.

(** ** The software wallet *)

Section SoftwareProperties.
Context `{Software.Imports}.

(** Once the validator and the helpers of the object literal have returned,
    the call is the callback's answer seen through the [try]/[catch]. *)
Lemma software_signTransaction_called callback transactionObject validated
    argument :
  Software.transactionObjectValidator transactionObject = Normal validated →
  Software.callbackArgument validated = Normal argument →
  Software.signTransaction callback transactionObject =
    match callback argument with
    | Fulfilled signedTransaction =>
        ([Callback argument],
         Fulfilled (hexSequenceNormalizer signedTransaction))
    | Rejected caughtError =>
        match get_property caughtError "message" with
        | Normal caughtMessage =>
            ([Callback argument],
             Rejected (new_Error (Software.cannotSignMessage
                                    transactionObject caughtMessage)))
        | Throw e => ([Callback argument], Rejected e)
        end
    | Pending => ([Callback argument], Pending)
    end.
Proof.
  intros Hvalid Harg. unfold Software.signTransaction.
  rewrite Hvalid. async_run. rewrite Harg. async_run.
  destruct (callback argument) as [signed | caught |]; async_run;
    try reflexivity.
  destruct (get_property caught "message"); reflexivity.
Qed.

(** C2: when the signer callback throws an error, the software
    [signTransaction] rejects with one new error, whose message is made of
    the cannot-sign prefix, the serialized transaction object and the
    message of the original error, in this order, and so contains each of
    them. *)
Theorem software_signTransaction_wraps_callback_error callback
    transactionObject validated argument message :
  Software.transactionObjectValidator transactionObject = Normal validated →
  Software.callbackArgument validated = Normal argument →
  callback argument = Rejected (new_Error message) →
  let wrapped :=
    Software.messages_cannotSign +:+ " "
      +:+ Software.objectToErrorString transactionObject +:+ " " +:+ message in
  Software.signTransaction callback transactionObject
    = ([Callback argument], Rejected (new_Error wrapped))
  ∧ contains Software.messages_cannotSign wrapped
  ∧ contains (Software.objectToErrorString transactionObject) wrapped
  ∧ contains message wrapped.
Proof.
  intros Hvalid Harg Hthrows wrapped.
  rewrite (software_signTransaction_called _ _ _ _ Hvalid Harg), Hthrows.
  repeat split.
  - apply contains_head.
  - do 2 apply contains_skip. apply contains_head.
  - do 4 apply contains_skip. apply contains_refl.
Qed.

(** C7: when the validator accepts the transaction object and the callback
    returns a string, the software [signTransaction] returns that string
    through the hex-sequence normalizer: [0x] followed by an even number of
    digits that stand for the number the callback's digits stand for. *)
Theorem software_signTransaction_returns_normalized callback
    transactionObject validated argument signedTransaction :
  Software.transactionObjectValidator transactionObject = Normal validated →
  Software.callbackArgument validated = Normal argument →
  callback argument = Fulfilled signedTransaction →
  Software.signTransaction callback transactionObject
    = ([Callback argument],
       Fulfilled (hexSequenceNormalizer signedTransaction))
  ∧ ∃ digits,
      hexSequenceNormalizer signedTransaction = "0x" +:+ digits
      ∧ Nat.even (String.length digits) = true
      ∧ hexValue digits = hexValue (strip_0x signedTransaction).
Proof.
  intros Hvalid Harg Hsigned.
  rewrite (software_signTransaction_called _ _ _ _ Hvalid Harg), Hsigned.
  split; [reflexivity |].
  exists (multipleOfTwoHexValueNormalizer (strip_0x signedTransaction)).
  split; [reflexivity |]. split.
  - apply multipleOfTwoHexValueNormalizer_even.
  - apply multipleOfTwoHexValueNormalizer_value.
Qed.

End SoftwareProperties.

Lemma software_signTransaction_wraps_callback_error_witness :
  @Software.signTransaction Mock.software Mock.boom ∅
    = ([Callback {[ "gasPrice" := VStr "9000000000";
                    "gasLimit" := VStr "21000";
                    "chainId" := VNum 1;
                    "nonce" := VNum 0;
                    "to" := VStr "0x3953cF4eA75a62c6fCD0b3988b1984265006a4CC";
                    "value" := VStr "1";
                    "data" := VStr "0x00" ]}],
       Rejected (new_Error "Cannot sign the transaction {chainId: 1} boom")).
Proof.
  apply (@software_signTransaction_wraps_callback_error Mock.software
           Mock.boom ∅ Mock.validated _ "boom");
    reflexivity.
Defined.

Lemma software_signTransaction_returns_normalized_witness :
  @Software.signTransaction Mock.software Mock.signs ∅
    = ([Callback {[ "gasPrice" := VStr "9000000000";
                    "gasLimit" := VStr "21000";
                    "chainId" := VNum 1;
                    "nonce" := VNum 0;
                    "to" := VStr "0x3953cF4eA75a62c6fCD0b3988b1984265006a4CC";
                    "value" := VStr "1";
                    "data" := VStr "0x00" ]}],
       Fulfilled "0xf86c").
Proof.
  apply (@software_signTransaction_returns_normalized Mock.software
           Mock.signs ∅ Mock.validated _ "f86c");
    reflexivity.
Defined.

(** ** Objects *)

Lemma Object_assign_field (template fields : gmap string jsval) k v :
  fields !! k = Some v → Object_assign template fields !! k = Some v.
Proof. intros Hk. unfold Object_assign. now apply lookup_union_Some_l. Qed.

Lemma Object_assign_template (template fields : gmap string jsval) k :
  fields !! k = None → Object_assign template fields !! k = template !! k.
Proof.
  intros Hk. unfold Object_assign.
  rewrite lookup_union_r by exact Hk.
  now rewrite (right_id_L ∅ (∪)).
Qed.

Lemma get_property_new_Error (message : string) :
  get_property (new_Error message) "message" = Normal (VStr message).
Proof. reflexivity. Qed.

Lemma strict_eq_string_true (v : jsval) (s : string) :
  strict_eq_string v s = true ↔ v = VStr s.
Proof.
  destruct v; simpl; try (split; [discriminate | discriminate]).
  rewrite bool_decide_eq_true. split; congruence.
Qed.

(** ** The hardware wallet *)

Section HardwareProperties.
Context `{Hardware.Imports}.

Lemma transactionFields_lookup address_n gas_price nonce
    (transactionObject : gmap string jsval) :
  let fields :=
    Hardware.transactionFields address_n gas_price nonce transactionObject in
  fields !! "address_n" = Some (VArr address_n)
  ∧ fields !! "gas_price"
      = Some (VStr (multipleOfTwoHexValueNormalizer gas_price))
  ∧ fields !! "gas_limit" = Some (prop transactionObject "gasLimit")
  ∧ fields !! "chain_id" = Some (prop transactionObject "chainId")
  ∧ fields !! "nonce" = Some (VStr (multipleOfTwoHexValueNormalizer nonce))
  ∧ fields !! "to" = Some (prop transactionObject "to")
  ∧ fields !! "value" = Some (prop transactionObject "value")
  ∧ fields !! "data" = Some (prop transactionObject "data").
Proof. repeat split. Qed.

Lemma transactionFields_other address_n gas_price nonce
    (transactionObject : gmap string jsval) (k : string) :
  k ∉ ["address_n"; "gas_price"; "gas_limit"; "chain_id"; "nonce"; "to";
       "value"; "data"] →
  Hardware.transactionFields address_n gas_price nonce transactionObject !! k
    = None.
Proof.
  intros Hk. unfold Hardware.transactionFields.
  repeat (rewrite lookup_insert_ne
            by (intros <-; apply Hk; set_solver)).
  apply lookup_singleton_ne. intros <-. apply Hk. set_solver.
Qed.

(** What [signTransaction] does once the validators have returned and the
    payload is built: one call to the device, and the [catch] block on a
    rejection. *)
Lemma hardware_signTransaction_dispatch transactionObject payload :
  Hardware.validate transactionObject = Normal tt →
  Hardware.modifiedPayloadObject transactionObject = Normal payload →
  Hardware.signTransaction transactionObject =
    match Hardware.payloadListener payload with
    | Fulfilled signedTransaction =>
        ([PayloadListener payload], Fulfilled signedTransaction)
    | Rejected caughtError =>
        let '(evs, r) := Hardware.cancelHandler caughtError in
        (PayloadListener payload :: evs, r)
    | Pending => ([PayloadListener payload], Pending)
    end.
Proof.
  intros Hvalid Hpayload. unfold Hardware.signTransaction.
  rewrite Hvalid. async_run. rewrite Hpayload. async_run.
  destruct (Hardware.payloadListener payload); async_run; try reflexivity.
  destruct (Hardware.cancelHandler e). reflexivity.
Qed.

Lemma cancelHandler_cancelled :
  Hardware.cancelHandler (new_Error Hardware.STD_ERRORS_CANCEL_TX_SIGN)
    = ([Warning Hardware.messages_userSignTxCancel], Fulfilled VUndefined).
Proof.
  unfold Hardware.cancelHandler. rewrite get_property_new_Error. async_run.
  unfold strict_eq_string. rewrite bool_decide_eq_true_2 by reflexivity.
  reflexivity.
Qed.

Lemma cancelHandler_other (message : string) :
  message ≠ Hardware.STD_ERRORS_CANCEL_TX_SIGN →
  Hardware.cancelHandler (new_Error message) = ([], Fulfilled VUndefined).
Proof.
  intros Hne. unfold Hardware.cancelHandler.
  rewrite get_property_new_Error. async_run.
  unfold strict_eq_string. rewrite bool_decide_eq_false_2 by exact Hne.
  reflexivity.
Qed.

(** A rejection with [undefined] or [null] makes the [catch] block itself
    throw, on [caughtError.message]. *)
Example cancelHandler_nullish :
  Hardware.cancelHandler VUndefined
    = ([], Rejected (TypeError_nullish "message")).
Proof. reflexivity. Qed.

Lemma cancelHandler_trace caughtError payload :
  PayloadListener payload ∉ trace (Hardware.cancelHandler caughtError).
Proof.
  unfold Hardware.cancelHandler.
  destruct (get_property caughtError "message") as [message | e]; async_run;
    [| apply not_elem_of_nil].
  destruct (strict_eq_string message Hardware.STD_ERRORS_CANCEL_TX_SIGN);
    async_run; [| apply not_elem_of_nil].
  apply not_elem_of_cons. split; [discriminate | apply not_elem_of_nil].
Qed.

(** A payload reaches the device only after the four validators have
    returned, and it is the payload built from the transaction object. *)
Lemma hardware_signTransaction_trace transactionObject payload :
  PayloadListener payload ∈ trace (Hardware.signTransaction transactionObject) →
  Hardware.validate transactionObject = Normal tt
  ∧ Hardware.modifiedPayloadObject transactionObject = Normal payload.
Proof.
  destruct (Hardware.validate transactionObject) as [[] | e] eqn:Hvalid.
  2: { unfold Hardware.signTransaction. rewrite Hvalid. async_run.
       intros Hin. now apply elem_of_nil in Hin. }
  destruct (Hardware.modifiedPayloadObject transactionObject)
    as [built | e] eqn:Hbuilt.
  2: { unfold Hardware.signTransaction. rewrite Hvalid. async_run.
       rewrite Hbuilt. async_run. intros Hin. now apply elem_of_nil in Hin. }
  rewrite (hardware_signTransaction_dispatch _ _ Hvalid Hbuilt).
  intros Hin. split; [reflexivity |]. f_equal.
  destruct (Hardware.payloadListener built) as [signed | caught |].
  - apply list_elem_of_singleton in Hin. congruence.
  - pose proof (cancelHandler_trace caught payload) as Hnot.
    destruct (Hardware.cancelHandler caught) as [evs r].
    apply elem_of_cons in Hin as [Heq | Hin]; [congruence |].
    contradiction.
  - apply list_elem_of_singleton in Hin. congruence.
Qed.

Lemma hardware_signTransaction_cancelled transactionObject payload :
  Hardware.validate transactionObject = Normal tt →
  Hardware.modifiedPayloadObject transactionObject = Normal payload →
  Hardware.payloadListener payload
    = Rejected (new_Error Hardware.STD_ERRORS_CANCEL_TX_SIGN) →
  Hardware.signTransaction transactionObject
    = ([PayloadListener payload; Warning Hardware.messages_userSignTxCancel],
       Fulfilled VUndefined).
Proof.
  intros Hvalid Hbuilt Hcancel.
  rewrite (hardware_signTransaction_dispatch _ _ Hvalid Hbuilt), Hcancel.
  now rewrite cancelHandler_cancelled.
Qed.

(** C1: the code departs from the claim.  When the device channel rejects
    with an error whose message is not the cancellation sentinel, the
    hardware [signTransaction] does not surface the failure: it resolves to
    [undefined] all the same, and logs nothing. *)
Theorem hardware_signTransaction_swallows_rejection transactionObject
    payload message :
  Hardware.validate transactionObject = Normal tt →
  Hardware.modifiedPayloadObject transactionObject = Normal payload →
  Hardware.payloadListener payload = Rejected (new_Error message) →
  message ≠ Hardware.STD_ERRORS_CANCEL_TX_SIGN →
  Hardware.signTransaction transactionObject
    = ([PayloadListener payload], Fulfilled VUndefined).
Proof.
  intros Hvalid Hbuilt Hrejects Hother.
  rewrite (hardware_signTransaction_dispatch _ _ Hvalid Hbuilt), Hrejects.
  now rewrite (cancelHandler_other _ Hother).
Qed.

(** The payload [signTransaction] sends, read off the imports: the path
    validated, normalized and parsed; a gas price [g] and a nonce [n] that
    are either supplied or left out (then [g] is the default gas price and
    [n] is 0), each accepted by its validator. *)
Lemma hardware_signTransaction_sends transactionObject normalized address_n
    (g n : Z) :
  Hardware.derivationPathValidator (prop transactionObject "path")
    = Normal tt →
  Hardware.bigNumberValidator (VBig g) = Normal tt →
  Hardware.safeIntegerValidator (prop transactionObject "chainId")
    = Normal tt →
  Hardware.safeIntegerValidator (VNum n) = Normal tt →
  Hardware.derivationPathNormalizer (prop transactionObject "path")
    = Normal normalized →
  Hardware.fromString_toPathArray normalized = Normal address_n →
  prop transactionObject "gasPrice" = VBig g
  ∨ (prop transactionObject "gasPrice" = VUndefined
     ∧ Hardware.bigNumber_10_toGwei = VBig g) →
  prop transactionObject "nonce" = VNum n
  ∨ (prop transactionObject "nonce" = VUndefined ∧ n = 0%Z) →
  ∃ evs,
    trace (Hardware.signTransaction transactionObject)
      = PayloadListener
          ({[ "address_n" := VArr address_n;
              "gas_price" :=
                VStr (multipleOfTwoHexValueNormalizer (hex_of_Z g));
              "gas_limit" := prop transactionObject "gasLimit";
              "chain_id" := prop transactionObject "chainId";
              "nonce" := VStr (multipleOfTwoHexValueNormalizer (hex_of_Z n));
              "to" := prop transactionObject "to";
              "value" := prop transactionObject "value";
              "data" := prop transactionObject "data" ]}
           ∪ Hardware.PAYLOAD_SIGNTX)
        :: evs.
Proof.
  intros Hpath Hgas Hchain Hnonce Hnormalized Hparsed Hg Hn.
  assert (Hardware.gasPrice_of transactionObject = VBig g) as Hgas_of.
  { unfold Hardware.gasPrice_of.
    destruct Hg as [-> | [-> ->]]; reflexivity. }
  assert (Hardware.nonce_of transactionObject = VNum n) as Hnonce_of.
  { unfold Hardware.nonce_of.
    destruct Hn as [-> | [-> ->]]; reflexivity. }
  assert (Hardware.validate transactionObject = Normal tt) as Hvalid.
  { unfold Hardware.validate.
    rewrite Hpath, Hgas_of, Hgas, Hchain, Hnonce_of, Hnonce. reflexivity. }
  assert (Hardware.modifiedPayloadObject transactionObject
          = Normal (Object_assign Hardware.PAYLOAD_SIGNTX
                      (Hardware.transactionFields address_n (hex_of_Z g)
                         (hex_of_Z n) transactionObject))) as Hbuilt.
  { unfold Hardware.modifiedPayloadObject, Hardware.pathArray.
    rewrite Hnormalized. async_run. rewrite Hparsed, Hgas_of, Hnonce_of.
    reflexivity. }
  rewrite (hardware_signTransaction_dispatch _ _ Hvalid Hbuilt).
  unfold Object_assign, Hardware.transactionFields.
  rewrite (right_id_L ∅ (∪)).
  destruct (Hardware.payloadListener _) as [signed | caught |];
    [now exists [] | | now exists []].
  destruct (Hardware.cancelHandler caught) as [evs r]. now exists evs.
Qed.

(** C3: on an input its validators accept (the path converting to
    [address_n] through [derivationPathNormalizer] and then the path parser,
    the gas price being the big number [g] and the nonce the number [n],
    supplied or defaulted), the hardware [signTransaction] sends the device
    the [PAYLOAD_SIGNTX] template merged with: the path array under
    [address_n]; the base-16 renderings of [g] and [n], left-padded with a
    zero to an even length; the chain id, gas limit, recipient, value and
    data as given.  Every other property is the template's. *)
Theorem hardware_signTransaction_payload transactionObject normalized
    address_n (g n : Z) :
  Hardware.derivationPathValidator (prop transactionObject "path")
    = Normal tt →
  Hardware.bigNumberValidator (VBig g) = Normal tt →
  Hardware.safeIntegerValidator (prop transactionObject "chainId")
    = Normal tt →
  Hardware.safeIntegerValidator (VNum n) = Normal tt →
  Hardware.derivationPathNormalizer (prop transactionObject "path")
    = Normal normalized →
  Hardware.fromString_toPathArray normalized = Normal address_n →
  prop transactionObject "gasPrice" = VBig g
  ∨ (prop transactionObject "gasPrice" = VUndefined
     ∧ Hardware.bigNumber_10_toGwei = VBig g) →
  prop transactionObject "nonce" = VNum n
  ∨ (prop transactionObject "nonce" = VUndefined ∧ n = 0%Z) →
  let gas_price := multipleOfTwoHexValueNormalizer (hex_of_Z g) in
  let nonce := multipleOfTwoHexValueNormalizer (hex_of_Z n) in
  ∃ payload evs,
    trace (Hardware.signTransaction transactionObject)
      = PayloadListener payload :: evs
    ∧ payload
        = {[ "address_n" := VArr address_n;
             "gas_price" := VStr gas_price;
             "gas_limit" := prop transactionObject "gasLimit";
             "chain_id" := prop transactionObject "chainId";
             "nonce" := VStr nonce;
             "to" := prop transactionObject "to";
             "value" := prop transactionObject "value";
             "data" := prop transactionObject "data" ]}
          ∪ Hardware.PAYLOAD_SIGNTX
    ∧ payload !! "address_n" = Some (VArr address_n)
    ∧ payload !! "gas_price" = Some (VStr gas_price)
    ∧ payload !! "nonce" = Some (VStr nonce)
    ∧ Nat.even (String.length gas_price) = true
    ∧ Nat.even (String.length nonce) = true
    ∧ (gas_price = hex_of_Z g ∨ gas_price = "0" +:+ hex_of_Z g)
    ∧ (nonce = hex_of_Z n ∨ nonce = "0" +:+ hex_of_Z n)
    ∧ payload !! "chain_id" = Some (prop transactionObject "chainId")
    ∧ payload !! "gas_limit" = Some (prop transactionObject "gasLimit")
    ∧ payload !! "to" = Some (prop transactionObject "to")
    ∧ payload !! "value" = Some (prop transactionObject "value")
    ∧ payload !! "data" = Some (prop transactionObject "data")
    ∧ ∀ k, k ∉ ["address_n"; "gas_price"; "gas_limit"; "chain_id"; "nonce";
                "to"; "value"; "data"] →
           payload !! k = Hardware.PAYLOAD_SIGNTX !! k.
Proof.
  intros Hpath Hgas Hchain Hnonce Hnormalized Hparsed Hg Hn gas_price nonce.
  destruct (hardware_signTransaction_sends _ _ _ _ _ Hpath Hgas Hchain Hnonce
              Hnormalized Hparsed Hg Hn) as [evs Htrace].
  eexists. exists evs. split; [exact Htrace |]. split; [reflexivity |].
  fold gas_price nonce.
  change ({[ "address_n" := VArr address_n;
             "gas_price" := VStr gas_price;
             "gas_limit" := prop transactionObject "gasLimit";
             "chain_id" := prop transactionObject "chainId";
             "nonce" := VStr nonce;
             "to" := prop transactionObject "to";
             "value" := prop transactionObject "value";
             "data" := prop transactionObject "data" ]} : gmap string jsval)
    with (Hardware.transactionFields address_n (hex_of_Z g) (hex_of_Z n)
            transactionObject).
  destruct (transactionFields_lookup address_n (hex_of_Z g) (hex_of_Z n)
              transactionObject)
    as (Ha & Hgp & Hl & Hc & Hno & Ht & Hv & Hd).
  repeat split;
    try (apply lookup_union_Some_l; assumption);
    try apply multipleOfTwoHexValueNormalizer_even;
    try apply multipleOfTwoHexValueNormalizer_pads.
  intros k Hk. rewrite lookup_union_r; [reflexivity |].
  now apply transactionFields_other.
Qed.

(** C5: when a validator fails, the hardware [signTransaction] rejects with
    the error of the first validator that fails; nothing has been sent to
    the device or logged by then, and the error does not go through the
    [catch] block that turns a rejection into [undefined]. *)
Theorem hardware_signTransaction_validation_error transactionObject :
  let path := Hardware.derivationPathValidator (prop transactionObject "path") in
  let gasPrice :=
    Hardware.bigNumberValidator (Hardware.gasPrice_of transactionObject) in
  let chainId :=
    Hardware.safeIntegerValidator (prop transactionObject "chainId") in
  let nonce :=
    Hardware.safeIntegerValidator (Hardware.nonce_of transactionObject) in
  (∃ e, path = Throw e) ∨ (∃ e, gasPrice = Throw e)
  ∨ (∃ e, chainId = Throw e) ∨ (∃ e, nonce = Throw e) →
  ∃ e,
    Hardware.signTransaction transactionObject = ([], Rejected e)
    ∧ (path = Throw e
       ∨ (path = Normal tt ∧ gasPrice = Throw e)
       ∨ (path = Normal tt ∧ gasPrice = Normal tt ∧ chainId = Throw e)
       ∨ (path = Normal tt ∧ gasPrice = Normal tt ∧ chainId = Normal tt
          ∧ nonce = Throw e)).
Proof.
  intros path gasPrice chainId nonce Hfails.
  unfold Hardware.signTransaction, Hardware.validate.
  fold path gasPrice chainId nonce.
  destruct path as [[] | e1]; [| exists e1; split; [reflexivity | tauto]].
  destruct gasPrice as [[] | e2]; [| exists e2; split; [reflexivity | tauto]].
  destruct chainId as [[] | e3]; [| exists e3; split; [reflexivity | tauto]].
  destruct nonce as [[] | e4]; [| exists e4; split; [reflexivity | tauto]].
  destruct Hfails as [[e He] | [[e He] | [[e He] | [e He]]]]; discriminate.
Qed.

Lemma prop_insert_ne (o : gmap string jsval) k k' v :
  k ≠ k' → prop (<[k:=v]> o) k' = prop o k'.
Proof. intros Hne. unfold prop. now rewrite lookup_insert_ne. Qed.

(** [signTransaction] reads its argument through the eight destructured
    parameters only. *)
Lemma hardware_signTransaction_ext tx tx' :
  prop tx "path" = prop tx' "path" →
  Hardware.gasPrice_of tx = Hardware.gasPrice_of tx' →
  prop tx "gasLimit" = prop tx' "gasLimit" →
  prop tx "chainId" = prop tx' "chainId" →
  Hardware.nonce_of tx = Hardware.nonce_of tx' →
  prop tx "to" = prop tx' "to" →
  prop tx "value" = prop tx' "value" →
  prop tx "data" = prop tx' "data" →
  Hardware.signTransaction tx = Hardware.signTransaction tx'.
Proof.
  intros Hpath Hgas Hlimit Hchain Hnonce Hto Hvalue Hdata.
  unfold Hardware.signTransaction, Hardware.validate,
    Hardware.modifiedPayloadObject, Hardware.transactionFields.
  now rewrite Hpath, Hgas, Hlimit, Hchain, Hnonce, Hto, Hvalue, Hdata.
Qed.

(** C6: with the nonce left out, the nonce validator is given 0 and the
    payload sent carries the rendering of 0; with the gas price left out,
    the gas price validator is given the default [bigNumber(10).toGwei()]
    and the payload carries its rendering; a gas price or a nonce that is
    supplied is validated and sent as it is, and the gas limit, chain id,
    recipient, value and data reach the payload as supplied. *)
Theorem hardware_signTransaction_defaults transactionObject normalized
    address_n :
  Hardware.derivationPathValidator (prop transactionObject "path")
    = Normal tt →
  Hardware.safeIntegerValidator (prop transactionObject "chainId")
    = Normal tt →
  Hardware.derivationPathNormalizer (prop transactionObject "path")
    = Normal normalized →
  Hardware.fromString_toPathArray normalized = Normal address_n →
  let payload := λ (gasPrice nonce : Z),
    ({[ "address_n" := VArr address_n;
        "gas_price" :=
          VStr (multipleOfTwoHexValueNormalizer (hex_of_Z gasPrice));
        "gas_limit" := prop transactionObject "gasLimit";
        "chain_id" := prop transactionObject "chainId";
        "nonce" := VStr (multipleOfTwoHexValueNormalizer (hex_of_Z nonce));
        "to" := prop transactionObject "to";
        "value" := prop transactionObject "value";
        "data" := prop transactionObject "data" ]}
     ∪ Hardware.PAYLOAD_SIGNTX : gmap string jsval) in
  (∀ g,
     prop transactionObject "nonce" = VUndefined →
     prop transactionObject "gasPrice" = VBig g →
     Hardware.bigNumberValidator (VBig g) = Normal tt →
     Hardware.safeIntegerValidator (VNum 0) = Normal tt →
     ∃ evs, trace (Hardware.signTransaction transactionObject)
            = PayloadListener (payload g 0%Z) :: evs)
  ∧ (∀ default n,
       prop transactionObject "gasPrice" = VUndefined →
       Hardware.bigNumber_10_toGwei = VBig default →
       prop transactionObject "nonce" = VNum n →
       Hardware.bigNumberValidator (VBig default) = Normal tt →
       Hardware.safeIntegerValidator (VNum n) = Normal tt →
       ∃ evs, trace (Hardware.signTransaction transactionObject)
              = PayloadListener (payload default n) :: evs)
  ∧ (∀ default,
       prop transactionObject "gasPrice" = VUndefined →
       Hardware.bigNumber_10_toGwei = VBig default →
       prop transactionObject "nonce" = VUndefined →
       Hardware.bigNumberValidator (VBig default) = Normal tt →
       Hardware.safeIntegerValidator (VNum 0) = Normal tt →
       ∃ evs, trace (Hardware.signTransaction transactionObject)
              = PayloadListener (payload default 0%Z) :: evs)
  ∧ (∀ g e,
       prop transactionObject "nonce" = VUndefined →
       prop transactionObject "gasPrice" = VBig g
       ∨ (prop transactionObject "gasPrice" = VUndefined
          ∧ Hardware.bigNumber_10_toGwei = VBig g) →
       Hardware.bigNumberValidator (VBig g) = Normal tt →
       Hardware.safeIntegerValidator (VNum 0) = Throw e →
       Hardware.signTransaction transactionObject = ([], Rejected e))
  ∧ (∀ e,
       prop transactionObject "gasPrice" = VUndefined →
       Hardware.bigNumberValidator Hardware.bigNumber_10_toGwei = Throw e →
       Hardware.signTransaction transactionObject = ([], Rejected e)).
Proof.
  intros Hpath Hchain Hnormalized Hparsed payload.
  split; [| split; [| split; [| split]]].
  - intros g Hn Hg Hgas Hnonce.
    apply (hardware_signTransaction_sends _ _ _ g 0%Z Hpath Hgas Hchain Hnonce
             Hnormalized Hparsed); [now left | now right].
  - intros default n Hg Hdefault Hn Hgas Hnonce.
    apply (hardware_signTransaction_sends _ _ _ default n Hpath Hgas Hchain
             Hnonce Hnormalized Hparsed); [now right | now left].
  - intros default Hg Hdefault Hn Hgas Hnonce.
    apply (hardware_signTransaction_sends _ _ _ default 0%Z Hpath Hgas Hchain
             Hnonce Hnormalized Hparsed); [now right | now right].
  - intros g e Hn Hg Hgas Hnonce.
    unfold Hardware.signTransaction, Hardware.validate,
      Hardware.gasPrice_of, Hardware.nonce_of.
    rewrite Hpath, Hn, Hchain. cbn [Hardware.with_default].
    destruct Hg as [-> | [-> ->]]; cbn [Hardware.with_default];
      rewrite Hgas; async_run; now rewrite Hnonce.
  - intros e Hg Hgas.
    unfold Hardware.signTransaction, Hardware.validate,
      Hardware.gasPrice_of.
    rewrite Hpath, Hg. cbn [Hardware.with_default]. now rewrite Hgas.
Qed.

(** C4: when the address passes [validateAddress], [verifyMessage] sends
    the device one payload whose [address] is the validated address without
    its leading [0x] (the address itself when it has no such prefix), and
    when the device answers with an object the call resolves to the
    [success] property of the answer. *)
Theorem hardware_verifyMessage_strips_prefix messageObject validatedAddress :
  Hardware.validateAddress (prop messageObject "address")
    = Normal validatedAddress →
  ∃ payload,
    trace (Hardware.verifyMessage messageObject) = [PayloadListener payload]
    ∧ payload !! "address" = Some (VStr (strip_0x validatedAddress))
    ∧ (∀ rest, validatedAddress = "0x" +:+ rest →
               strip_0x validatedAddress = rest)
    ∧ ((¬ ∃ rest, validatedAddress = "0x" +:+ rest) →
       strip_0x validatedAddress = validatedAddress)
    ∧ (∀ response,
         Hardware.payloadListener payload = Fulfilled (VObj response) →
         result (Hardware.verifyMessage messageObject)
           = Fulfilled (prop response "success")).
Proof.
  intros Hvalid.
  exists (Hardware.verifyPayload validatedAddress messageObject).
  unfold Hardware.verifyMessage. rewrite Hvalid. async_run.
  split; [| split; [| split; [| split]]].
  - destruct (Hardware.payloadListener _) as [response | e |];
      [| reflexivity | reflexivity].
    destruct (get_property response "success"); reflexivity.
  - now apply Object_assign_field.
  - intros rest ->. apply strip_0x_prefixed.
  - intros Hnone. apply strip_0x_unprefixed. intros Hprefix.
    apply Hnone. now apply substring_0x_prefix.
  - intros response ->. reflexivity.
Qed.

(** C9: the hardware [signMessage] has no [catch] around the dispatch: any
    rejection of the device channel, the user's cancellation included, is
    the rejection of the call, whereas the hardware [signTransaction]
    resolves to [undefined] when the device rejects with the cancellation
    error. *)
Theorem hardware_signMessage_propagates_rejection messageObject payload
    caughtError :
  Hardware.derivationPathValidator (prop messageObject "path") = Normal tt →
  Hardware.messagePayload messageObject = Normal payload →
  Hardware.payloadListener payload = Rejected caughtError →
  Hardware.signMessage messageObject
    = ([PayloadListener payload], Rejected caughtError)
  ∧ ∀ transactionObject payload',
      Hardware.validate transactionObject = Normal tt →
      Hardware.modifiedPayloadObject transactionObject = Normal payload' →
      Hardware.payloadListener payload'
        = Rejected (new_Error Hardware.STD_ERRORS_CANCEL_TX_SIGN) →
      result (Hardware.signTransaction transactionObject)
        = Fulfilled VUndefined.
Proof.
  intros Hvalid Hbuilt Hrejects. split.
  - unfold Hardware.signMessage. rewrite Hvalid. async_run.
    rewrite Hbuilt. async_run. now rewrite Hrejects.
  - intros tx payload' Hvalid' Hbuilt' Hcancel.
    now rewrite (hardware_signTransaction_cancelled _ _ Hvalid' Hbuilt' Hcancel).
Qed.


End HardwareProperties.

Lemma hardware_signTransaction_swallows_rejection_witness :
  @Hardware.signTransaction (Mock.hardware Mock.disconnected) Mock.transaction
    = ([PayloadListener Mock.transactionPayload], Fulfilled VUndefined).
Proof.
  apply (@hardware_signTransaction_swallows_rejection
           (Mock.hardware Mock.disconnected) Mock.transaction
           Mock.transactionPayload "Device disconnected");
    [reflexivity | reflexivity | reflexivity | discriminate].
Defined.

Lemma hardware_signTransaction_payload_witness :
  ∃ payload evs,
    trace (@Hardware.signTransaction (Mock.hardware (Mock.answers ∅))
             Mock.transaction)
      = PayloadListener payload :: evs
    ∧ payload = Mock.transactionPayload
    ∧ payload !! "address_n" = Some (VArr Mock.pathArray)
    ∧ payload !! "gas_price" = Some (VStr "012c")
    ∧ payload !! "nonce" = Some (VStr "03")
    ∧ payload !! "chain_id" = Some (VNum 1)
    ∧ payload !! "type" = Some (VStr "signtx").
Proof.
  destruct (@hardware_signTransaction_payload (Mock.hardware (Mock.answers ∅))
              Mock.transaction Mock.derivationPath Mock.pathArray 300%Z 3%Z
              eq_refl eq_refl eq_refl eq_refl eq_refl eq_refl
              (or_introl eq_refl) (or_introl eq_refl))
    as (payload & evs & Htrace & Hpayload & Ha & Hg & Hn & _ & _ & _ & _ & Hc
        & _ & _ & _ & _ & Hother).
  exists payload, evs. repeat split; try assumption.
  rewrite Hother; [reflexivity | compute_done].
Defined.

Lemma hardware_signTransaction_validation_error_witness :
  ∃ e,
    @Hardware.signTransaction (Mock.hardware (Mock.answers ∅))
      (delete "chainId" Mock.transaction)
      = ([], Rejected e).
Proof.
  destruct (@hardware_signTransaction_validation_error
              (Mock.hardware (Mock.answers ∅))
              (delete "chainId" Mock.transaction))
    as (e & He & _).
  - right. right. left. eexists. reflexivity.
  - exists e. exact He.
Defined.

Example hardware_signTransaction_without_chainId :
  @Hardware.signTransaction (Mock.hardware Mock.userCancels)
    (delete "chainId" Mock.transaction)
    = ([], Rejected (new_Error "Value is not a number")).
Proof. reflexivity. Qed.

Lemma hardware_signTransaction_defaults_witness :
  ∃ evs,
    trace (@Hardware.signTransaction (Mock.hardware (Mock.answers ∅))
             (delete "nonce" Mock.transaction))
      = PayloadListener (<["nonce" := VStr "00"]> Mock.transactionPayload)
          :: evs.
Proof.
  pose proof (@hardware_signTransaction_defaults
                (Mock.hardware (Mock.answers ∅))
                (delete "nonce" Mock.transaction)
                Mock.derivationPath Mock.pathArray) as Hdefaults.
  specialize (Hdefaults ltac:(reflexivity) ltac:(reflexivity)
                ltac:(reflexivity) ltac:(reflexivity)).
  destruct (proj1 Hdefaults 300%Z ltac:(reflexivity) ltac:(reflexivity)
              ltac:(reflexivity) ltac:(reflexivity))
    as [evs Htrace].
  exists evs. rewrite Htrace. reflexivity.
Defined.

Example hardware_signTransaction_without_nonce :
  ∃ payload,
    trace (@Hardware.signTransaction (Mock.hardware (Mock.answers ∅))
             (delete "gasPrice" (delete "nonce" Mock.transaction)))
      = [PayloadListener payload]
    ∧ payload !! "nonce" = Some (VStr "00")
    ∧ payload !! "gas_price" = Some (VStr "02540be400").
Proof. eexists. repeat split. Qed.

Lemma hardware_verifyMessage_strips_prefix_witness :
  ∃ payload,
    trace (@Hardware.verifyMessage
             (Mock.hardware (Mock.answers {[ "success" := VBool true ]}))
             Mock.message)
      = [PayloadListener payload]
    ∧ payload !! "address"
        = Some (VStr "3953cF4eA75a62c6fCD0b3988b1984265006a4CC")
    ∧ result (@Hardware.verifyMessage
                (Mock.hardware (Mock.answers {[ "success" := VBool true ]}))
                Mock.message)
        = Fulfilled (VBool true).
Proof.
  destruct (@hardware_verifyMessage_strips_prefix
              (Mock.hardware (Mock.answers {[ "success" := VBool true ]}))
              Mock.message "0x3953cF4eA75a62c6fCD0b3988b1984265006a4CC"
              eq_refl)
    as (payload & Htrace & Haddress & _ & _ & Hresult).
  exists payload. split; [exact Htrace |]. split; [exact Haddress |].
  exact (Hresult _ eq_refl).
Defined.

Lemma hardware_signMessage_propagates_rejection_witness :
  @Hardware.signMessage (Mock.hardware Mock.userCancels) Mock.message
    = ([PayloadListener Mock.messagePayload],
       Rejected (new_Error Mock.cancelled)).
Proof.
  exact (proj1 (@hardware_signMessage_propagates_rejection
                  (Mock.hardware Mock.userCancels) Mock.message
                  Mock.messagePayload (new_Error Mock.cancelled)
                  eq_refl eq_refl eq_refl)).
Defined.

Example hardware_signTransaction_user_cancels :
  @Hardware.signTransaction (Mock.hardware Mock.userCancels) Mock.transaction
    = ([PayloadListener Mock.transactionPayload;
        Warning "User cancelled signing the transaction"],
       Fulfilled VUndefined).
Proof. reflexivity. Qed.

(** ** The hardware wallet: the rest of [signTransaction] *)

Section HardwareSignTransaction.
Context `{Hardware.Imports}.

(** When the device answers, [signTransaction] resolves to the answer as it
    is, whatever its shape, after one device call and no warning. *)
Theorem hardware_signTransaction_returns_response transactionObject payload
    response :
  Hardware.validate transactionObject = Normal tt →
  Hardware.modifiedPayloadObject transactionObject = Normal payload →
  Hardware.payloadListener payload = Fulfilled response →
  Hardware.signTransaction transactionObject
    = ([PayloadListener payload], Fulfilled response).
Proof.
  intros Hvalid Hbuilt Hanswer.
  now rewrite (hardware_signTransaction_dispatch _ _ Hvalid Hbuilt), Hanswer.
Qed.

Lemma cancelHandler_message caughtError message :
  get_property caughtError "message" = Normal message →
  Hardware.cancelHandler caughtError
    = (if strict_eq_string message Hardware.STD_ERRORS_CANCEL_TX_SIGN
       then [Warning Hardware.messages_userSignTxCancel] else [],
       Fulfilled VUndefined).
Proof.
  intros Hmessage. unfold Hardware.cancelHandler. rewrite Hmessage.
  async_run.
  now destruct (strict_eq_string message Hardware.STD_ERRORS_CANCEL_TX_SIGN).
Qed.

Lemma cancelHandler_nullish_throws caughtError :
  caughtError = VUndefined ∨ caughtError = VNull →
  Hardware.cancelHandler caughtError
    = ([], Rejected (TypeError_nullish "message")).
Proof. intros [-> | ->]; reflexivity. Qed.

Lemma get_property_total (v : jsval) (k : string) :
  (v = VUndefined ∨ v = VNull) ∨ ∃ x, get_property v k = Normal x.
Proof. destruct v; simpl; eauto. Qed.

(** When the device rejects with a value that has properties (anything but
    [undefined] and [null]), [signTransaction] resolves to [undefined], and
    the warning is logged exactly when the [message] of the value is the
    cancellation string itself. *)
Theorem hardware_signTransaction_warns_iff_cancelled transactionObject
    payload caughtError message :
  Hardware.validate transactionObject = Normal tt →
  Hardware.modifiedPayloadObject transactionObject = Normal payload →
  Hardware.payloadListener payload = Rejected caughtError →
  get_property caughtError "message" = Normal message →
  result (Hardware.signTransaction transactionObject) = Fulfilled VUndefined
  ∧ (Warning Hardware.messages_userSignTxCancel
       ∈ trace (Hardware.signTransaction transactionObject)
     ↔ message = VStr Hardware.STD_ERRORS_CANCEL_TX_SIGN).
Proof.
  intros Hvalid Hbuilt Hrejects Hmessage.
  rewrite (hardware_signTransaction_dispatch _ _ Hvalid Hbuilt), Hrejects,
    (cancelHandler_message _ _ Hmessage).
  split; [reflexivity |]. rewrite <- strict_eq_string_true.
  destruct (strict_eq_string message Hardware.STD_ERRORS_CANCEL_TX_SIGN);
    cbn [trace fst].
  - split; [reflexivity |]. intros _. apply elem_of_cons. right.
    apply list_elem_of_singleton. reflexivity.
  - split; [| discriminate]. intros Hin.
    apply list_elem_of_singleton in Hin. discriminate.
Qed.

(** Once the payload is built, [signTransaction] rejects in one case only:
    the device rejected with [undefined] or [null], and then the rejection is
    the [TypeError] of reading [caughtError.message] in the [catch] block. *)
Theorem hardware_signTransaction_rejects_iff_nullish transactionObject
    payload :
  Hardware.validate transactionObject = Normal tt →
  Hardware.modifiedPayloadObject transactionObject = Normal payload →
  ((∃ e, result (Hardware.signTransaction transactionObject) = Rejected e)
   ↔ (Hardware.payloadListener payload = Rejected VUndefined
      ∨ Hardware.payloadListener payload = Rejected VNull))
  ∧ ∀ e, result (Hardware.signTransaction transactionObject) = Rejected e →
         e = TypeError_nullish "message".
Proof.
  intros Hvalid Hbuilt.
  rewrite (hardware_signTransaction_dispatch _ _ Hvalid Hbuilt).
  destruct (Hardware.payloadListener payload) as [response | caught |].
  - split; [| discriminate].
    split; [intros [e He]; discriminate | intros [? | ?]; discriminate].
  - destruct (get_property_total caught "message") as [Hnull | [m Hm]].
    + rewrite (cancelHandler_nullish_throws _ Hnull). cbn [result snd].
      split; [| congruence].
      split; [intros _; destruct Hnull; subst; tauto | eauto].
    + rewrite (cancelHandler_message _ _ Hm). cbn [result snd].
      split; [| discriminate].
      split; [intros [e He]; discriminate |].
      intros [[= ->] | [= ->]]; discriminate.
  - split; [| discriminate].
    split; [intros [e He]; discriminate | intros [? | ?]; discriminate].
Qed.

(** Whatever its input, [signTransaction] calls the device at most once, with
    the payload it has built, and the only other call it makes is the one
    warning that may follow: nothing is retried. *)
Theorem hardware_signTransaction_calls transactionObject :
  trace (Hardware.signTransaction transactionObject) = []
  ∨ ∃ payload,
      Hardware.modifiedPayloadObject transactionObject = Normal payload
      ∧ (trace (Hardware.signTransaction transactionObject)
           = [PayloadListener payload]
         ∨ trace (Hardware.signTransaction transactionObject)
             = [PayloadListener payload;
                Warning Hardware.messages_userSignTxCancel]).
Proof.
  destruct (Hardware.validate transactionObject) as [[] | e] eqn:Hvalid.
  2: { left. unfold Hardware.signTransaction. now rewrite Hvalid. }
  destruct (Hardware.modifiedPayloadObject transactionObject)
    as [payload | e] eqn:Hbuilt.
  2: { left. unfold Hardware.signTransaction. rewrite Hvalid. async_run.
       now rewrite Hbuilt. }
  right. exists payload. split; [reflexivity |].
  rewrite (hardware_signTransaction_dispatch _ _ Hvalid Hbuilt).
  destruct (Hardware.payloadListener payload) as [response | caught |];
    [now left | | now left].
  destruct (get_property_total caught "message") as [Hnull | [m Hm]].
  - rewrite (cancelHandler_nullish_throws _ Hnull). now left.
  - rewrite (cancelHandler_message _ _ Hm).
    destruct (strict_eq_string m Hardware.STD_ERRORS_CANCEL_TX_SIGN);
      [now right | now left].
Qed.

(** A throw while the payload is built (the path parser, or [toString] on a
    [null] gas price or nonce the validators let through) happens before the
    [try]: the call rejects with it and the device is not called. *)
Theorem hardware_signTransaction_build_failure transactionObject e :
  Hardware.validate transactionObject = Normal tt →
  Hardware.modifiedPayloadObject transactionObject = Throw e →
  Hardware.signTransaction transactionObject = ([], Rejected e).
Proof.
  intros Hvalid Hbuilt. unfold Hardware.signTransaction.
  rewrite Hvalid. async_run. now rewrite Hbuilt.
Qed.

(** [signTransaction] reads the eight destructured properties only: any
    other property of its argument changes nothing. *)
Theorem hardware_signTransaction_ignores_other_properties transactionObject
    (k : string) (v : jsval) :
  k ∉ ["path"; "gasPrice"; "gasLimit"; "chainId"; "nonce"; "to"; "value";
       "data"] →
  Hardware.signTransaction (<[k := v]> transactionObject)
    = Hardware.signTransaction transactionObject.
Proof.
  intros Hk.
  apply hardware_signTransaction_ext;
    unfold Hardware.gasPrice_of, Hardware.nonce_of;
    rewrite prop_insert_ne; try reflexivity;
    intros ->; apply Hk; compute_done.
Qed.

End HardwareSignTransaction.

(** ** The hardware wallet: [signMessage] and [verifyMessage] *)

Section HardwareMessages.
Context `{Hardware.Imports}.

Lemma hardware_signMessage_dispatch messageObject payload :
  Hardware.derivationPathValidator (prop messageObject "path") = Normal tt →
  Hardware.messagePayload messageObject = Normal payload →
  Hardware.signMessage messageObject =
    match Hardware.payloadListener payload with
    | Fulfilled response =>
        match get_property response "signature" with
        | Normal signedMessage =>
            ([PayloadListener payload], Fulfilled signedMessage)
        | Throw e => ([PayloadListener payload], Rejected e)
        end
    | Rejected e => ([PayloadListener payload], Rejected e)
    | Pending => ([PayloadListener payload], Pending)
    end.
Proof.
  intros Hvalid Hbuilt. unfold Hardware.signMessage.
  rewrite Hvalid. async_run. rewrite Hbuilt. async_run.
  destruct (Hardware.payloadListener payload) as [response | e |];
    try reflexivity.
  destruct (get_property response "signature"); reflexivity.
Qed.

(** When the device answers [signMessage] with an object, the call resolves
    to its [signature] property, [undefined] when there is none; when it
    answers with [undefined] or [null], the destructuring throws and the call
    rejects with that [TypeError]. *)
Theorem hardware_signMessage_response messageObject payload response :
  Hardware.derivationPathValidator (prop messageObject "path") = Normal tt →
  Hardware.messagePayload messageObject = Normal payload →
  Hardware.payloadListener payload = Fulfilled response →
  (∀ r signature, response = VObj r → r !! "signature" = Some signature →
     Hardware.signMessage messageObject
       = ([PayloadListener payload], Fulfilled signature))
  ∧ (∀ r, response = VObj r → r !! "signature" = None →
       Hardware.signMessage messageObject
         = ([PayloadListener payload], Fulfilled VUndefined))
  ∧ (response = VUndefined ∨ response = VNull →
     Hardware.signMessage messageObject
       = ([PayloadListener payload],
          Rejected (TypeError_nullish "signature"))).
Proof.
  intros Hvalid Hbuilt Hanswer.
  rewrite (hardware_signMessage_dispatch _ _ Hvalid Hbuilt), Hanswer.
  split; [| split].
  - intros r signature -> Hr. cbn. unfold prop. now rewrite Hr.
  - intros r -> Hr. cbn. unfold prop. now rewrite Hr.
  - intros [-> | ->]; reflexivity.
Qed.

(** When the path validator or the path conversion throws, [signMessage]
    rejects with that error and the device is not called. *)
Theorem hardware_signMessage_before_dispatch messageObject e :
  Hardware.derivationPathValidator (prop messageObject "path") = Throw e
  ∨ (Hardware.derivationPathValidator (prop messageObject "path") = Normal tt
     ∧ Hardware.pathArray (prop messageObject "path") = Throw e) →
  Hardware.signMessage messageObject = ([], Rejected e).
Proof.
  unfold Hardware.signMessage, Hardware.messagePayload.
  intros [Hvalid | [Hvalid Hpath]]; rewrite Hvalid; async_run;
    [reflexivity |].
  now rewrite Hpath.
Qed.

(** On a path the validator accepts and the parser converts, [signMessage]
    makes one call, with the [PAYLOAD_SIGNMSG] template carrying the path
    array under [path] and the message as given; every other property of
    the payload is the template's. *)
Theorem hardware_signMessage_payload messageObject path :
  Hardware.derivationPathValidator (prop messageObject "path") = Normal tt →
  Hardware.pathArray (prop messageObject "path") = Normal path →
  ∃ payload,
    trace (Hardware.signMessage messageObject) = [PayloadListener payload]
    ∧ payload !! "path" = Some (VArr path)
    ∧ payload !! "message" = Some (prop messageObject "message")
    ∧ ∀ k, k ∉ ["path"; "message"] →
           payload !! k = Hardware.PAYLOAD_SIGNMSG !! k.
Proof.
  intros Hvalid Hpath.
  set (fields := ({[ "path" := VArr path;
                     "message" := prop messageObject "message" ]}
                  : gmap string jsval)).
  assert (Hardware.messagePayload messageObject
          = Normal (Object_assign Hardware.PAYLOAD_SIGNMSG fields)) as Hbuilt
    by (unfold Hardware.messagePayload; now rewrite Hpath).
  exists (Object_assign Hardware.PAYLOAD_SIGNMSG fields).
  rewrite (hardware_signMessage_dispatch _ _ Hvalid Hbuilt).
  split; [| split; [| split]].
  - destruct (Hardware.payloadListener _) as [response | e |];
      try reflexivity.
    destruct (get_property response "signature"); reflexivity.
  - now apply Object_assign_field.
  - now apply Object_assign_field.
  - intros k Hk. apply Object_assign_template. unfold fields.
    rewrite lookup_insert_ne by (intros <-; apply Hk; compute_done).
    apply lookup_singleton_ne. intros <-. apply Hk. compute_done.
Qed.

(** When [validateAddress] throws, [verifyMessage] rejects with its error
    and the device is not called. *)
Theorem hardware_verifyMessage_invalid_address messageObject e :
  Hardware.validateAddress (prop messageObject "address") = Throw e →
  Hardware.verifyMessage messageObject = ([], Rejected e).
Proof.
  intros Hinvalid. unfold Hardware.verifyMessage. now rewrite Hinvalid.
Qed.

Lemma hardware_verifyMessage_dispatch messageObject validatedAddress :
  Hardware.validateAddress (prop messageObject "address")
    = Normal validatedAddress →
  let payload := Hardware.verifyPayload validatedAddress messageObject in
  Hardware.verifyMessage messageObject =
    match Hardware.payloadListener payload with
    | Fulfilled response =>
        match get_property response "success" with
        | Normal isMessageValid =>
            ([PayloadListener payload], Fulfilled isMessageValid)
        | Throw e => ([PayloadListener payload], Rejected e)
        end
    | Rejected e => ([PayloadListener payload], Rejected e)
    | Pending => ([PayloadListener payload], Pending)
    end.
Proof.
  intros Hvalid payload. unfold Hardware.verifyMessage.
  rewrite Hvalid. async_run. fold payload.
  destruct (Hardware.payloadListener payload) as [response | e |];
    try reflexivity.
  destruct (get_property response "success"); reflexivity.
Qed.

(** A rejection of the device is the rejection of [verifyMessage]: a failed
    verification that the device reports by rejecting is never turned into
    a [false] result. *)
Theorem hardware_verifyMessage_propagates_rejection messageObject
    validatedAddress e :
  Hardware.validateAddress (prop messageObject "address")
    = Normal validatedAddress →
  Hardware.payloadListener
    (Hardware.verifyPayload validatedAddress messageObject) = Rejected e →
  Hardware.verifyMessage messageObject
    = ([PayloadListener
          (Hardware.verifyPayload validatedAddress messageObject)],
       Rejected e).
Proof.
  intros Hvalid Hrejects.
  now rewrite (hardware_verifyMessage_dispatch _ _ Hvalid), Hrejects.
Qed.

(** Whenever [verifyMessage] resolves, the device was called with the
    payload of the validated address and answered, and the result is what
    reading [success] off its answer gives. *)
Theorem hardware_verifyMessage_verdict_from_device messageObject
    isMessageValid :
  result (Hardware.verifyMessage messageObject) = Fulfilled isMessageValid →
  ∃ validatedAddress response,
    Hardware.validateAddress (prop messageObject "address")
      = Normal validatedAddress
    ∧ Hardware.payloadListener
        (Hardware.verifyPayload validatedAddress messageObject)
        = Fulfilled response
    ∧ get_property response "success" = Normal isMessageValid
    ∧ trace (Hardware.verifyMessage messageObject)
        = [PayloadListener
             (Hardware.verifyPayload validatedAddress messageObject)].
Proof.
  destruct (Hardware.validateAddress (prop messageObject "address"))
    as [validatedAddress | e] eqn:Hvalid.
  2: { now rewrite (hardware_verifyMessage_invalid_address _ _ Hvalid). }
  rewrite (hardware_verifyMessage_dispatch _ _ Hvalid).
  destruct (Hardware.payloadListener _) as [response | e |] eqn:Hanswer;
    [| discriminate | discriminate].
  destruct (get_property response "success") as [v | e] eqn:Hsuccess;
    [| discriminate].
  intros [= <-]. now exists validatedAddress, response.
Qed.

(** When the device answers [verifyMessage] with [undefined] or [null], the
    destructuring throws and the call rejects with that [TypeError]; when
    its answer is an object without [success], the call resolves to
    [undefined]. *)
Theorem hardware_verifyMessage_malformed_response messageObject
    validatedAddress response :
  Hardware.validateAddress (prop messageObject "address")
    = Normal validatedAddress →
  Hardware.payloadListener
    (Hardware.verifyPayload validatedAddress messageObject)
    = Fulfilled response →
  (response = VUndefined ∨ response = VNull →
   result (Hardware.verifyMessage messageObject)
     = Rejected (TypeError_nullish "success"))
  ∧ (∀ r, response = VObj r → r !! "success" = None →
       result (Hardware.verifyMessage messageObject) = Fulfilled VUndefined).
Proof.
  intros Hvalid Hanswer.
  rewrite (hardware_verifyMessage_dispatch _ _ Hvalid), Hanswer. split.
  - intros [-> | ->]; reflexivity.
  - intros r -> Hr. cbn. unfold prop. now rewrite Hr.
Qed.

(** The payload of [verifyMessage] carries the message and the signature as
    given; every property other than [address], [message] and [signature]
    is the [PAYLOAD_VERIFYMSG] template's. *)
Theorem hardware_verifyMessage_payload messageObject validatedAddress :
  Hardware.validateAddress (prop messageObject "address")
    = Normal validatedAddress →
  ∃ payload,
    trace (Hardware.verifyMessage messageObject) = [PayloadListener payload]
    ∧ payload !! "message" = Some (prop messageObject "message")
    ∧ payload !! "signature" = Some (prop messageObject "signature")
    ∧ ∀ k, k ∉ ["address"; "message"; "signature"] →
           payload !! k = Hardware.PAYLOAD_VERIFYMSG !! k.
Proof.
  intros Hvalid.
  exists (Hardware.verifyPayload validatedAddress messageObject).
  rewrite (hardware_verifyMessage_dispatch _ _ Hvalid).
  split; [| split; [| split]].
  - destruct (Hardware.payloadListener _) as [response | e |];
      try reflexivity.
    destruct (get_property response "success"); reflexivity.
  - now apply Object_assign_field.
  - now apply Object_assign_field.
  - intros k Hk. apply Object_assign_template.
    rewrite !lookup_insert_ne by (intros <-; apply Hk; compute_done).
    apply lookup_singleton_ne. intros <-. apply Hk. compute_done.
Qed.

End HardwareMessages.

(** Stripping the prefix is exact: either the string does not start with
    [0x] and is left as it is, or putting [0x] back in front of the result
    gives the string again.  The test is case sensitive: a string that
    starts with [0X] is left as it is. *)
Theorem strip_0x_exact (s : string) :
  ((String.substring 0 2 s ≠ "0x" ∧ strip_0x s = s)
   ∨ (String.substring 0 2 s = "0x" ∧ "0x" +:+ strip_0x s = s
      ∧ String.length (strip_0x s) + 2 = String.length s))
  ∧ strip_0x ("0X" +:+ s) = "0X" +:+ s.
Proof.
  split.
  - destruct (decide (String.substring 0 2 s = "0x")) as [Hprefix | Hnone].
    + right. split; [exact Hprefix |].
      destruct (substring_0x_prefix s Hprefix) as [rest ->].
      rewrite strip_0x_prefixed. split; [reflexivity |].
      change (String.length ("0x" +:+ rest))
        with (S (S (String.length rest))).
      lia.
    + left. split; [exact Hnone |]. now apply strip_0x_unprefixed.
  - apply strip_0x_unprefixed. destruct s; discriminate.
Qed.

(** ** The software wallet: the rest of [signTransaction] *)

Lemma get_property_throw (v : jsval) (k : string) (e : jsval) :
  get_property v k = Throw e → e = TypeError_nullish k.
Proof. destruct v; simpl; congruence. Qed.

Section SoftwareSignTransaction.
Context `{Software.Imports}.

(** When [transactionObjectValidator] throws, [signTransaction] rejects with
    its error as it is, not wrapped in a cannot-sign error, and the callback
    is not called. *)
Theorem software_signTransaction_invalid callback transactionObject e :
  Software.transactionObjectValidator transactionObject = Throw e →
  Software.signTransaction callback transactionObject = ([], Rejected e).
Proof.
  intros Hinvalid. unfold Software.signTransaction. now rewrite Hinvalid.
Qed.

Lemma software_signTransaction_not_called callback transactionObject
    validated caughtError :
  Software.transactionObjectValidator transactionObject = Normal validated →
  Software.callbackArgument validated = Throw caughtError →
  Software.signTransaction callback transactionObject =
    match get_property caughtError "message" with
    | Normal caughtMessage =>
        ([], Rejected (new_Error (Software.cannotSignMessage
                                    transactionObject caughtMessage)))
    | Throw e => ([], Rejected e)
    end.
Proof.
  intros Hvalid Harg. unfold Software.signTransaction.
  rewrite Hvalid. async_run. rewrite Harg. async_run.
  destruct (get_property caughtError "message"); reflexivity.
Qed.

(** The helpers that build the callback's argument run inside the [try]:
    when one of them throws an error, [signTransaction] rejects with the
    cannot-sign error around its message although the callback was never
    called. *)
Theorem software_signTransaction_helper_failure callback transactionObject
    validated message :
  Software.transactionObjectValidator transactionObject = Normal validated →
  Software.callbackArgument validated = Throw (new_Error message) →
  Software.signTransaction callback transactionObject
    = ([], Rejected (new_Error (Software.messages_cannotSign +:+ " "
                                 +:+ Software.objectToErrorString
                                       transactionObject
                                 +:+ " " +:+ message))).
Proof.
  intros Hvalid Harg.
  now rewrite (software_signTransaction_not_called _ _ _ _ Hvalid Harg).
Qed.

(** Past the validator, every rejection of [signTransaction] is a
    cannot-sign error carrying the serialized transaction object, except
    when the caught value is [undefined] or [null]: then it is the
    [TypeError] of reading its [message]. *)
Theorem software_signTransaction_rejections callback transactionObject
    validated e :
  Software.transactionObjectValidator transactionObject = Normal validated →
  result (Software.signTransaction callback transactionObject) = Rejected e →
  (∃ caughtMessage,
     e = new_Error (Software.messages_cannotSign +:+ " "
                      +:+ Software.objectToErrorString transactionObject
                      +:+ " " +:+ template_string caughtMessage))
  ∨ e = TypeError_nullish "message".
Proof.
  intros Hvalid.
  destruct (Software.callbackArgument validated) as [argument | caught]
    eqn:Harg.
  - rewrite (software_signTransaction_called _ _ _ _ Hvalid Harg).
    destruct (callback argument) as [signed | caught |];
      [discriminate | | discriminate].
    destruct (get_property caught "message") as [m | e'] eqn:Hm.
    + intros [= <-]. left. now exists m.
    + intros [= <-]. right. now apply get_property_throw in Hm.
  - rewrite (software_signTransaction_not_called _ _ _ _ Hvalid Harg).
    destruct (get_property caught "message") as [m | e'] eqn:Hm.
    + intros [= <-]. left. now exists m.
    + intros [= <-]. right. now apply get_property_throw in Hm.
Qed.

(** [signTransaction] calls the callback at most once, and only with the
    argument built from the validated transaction. *)
Theorem software_signTransaction_calls callback transactionObject :
  trace (Software.signTransaction callback transactionObject) = []
  ∨ ∃ validated argument,
      Software.transactionObjectValidator transactionObject
        = Normal validated
      ∧ Software.callbackArgument validated = Normal argument
      ∧ trace (Software.signTransaction callback transactionObject)
          = [Callback argument].
Proof.
  destruct (Software.transactionObjectValidator transactionObject)
    as [validated | e] eqn:Hvalid.
  2: { left. now rewrite (software_signTransaction_invalid _ _ _ Hvalid). }
  destruct (Software.callbackArgument validated) as [argument | caught]
    eqn:Harg.
  - right. exists validated, argument. split; [reflexivity |].
    split; [exact Harg |].
    rewrite (software_signTransaction_called _ _ _ _ Hvalid Harg).
    destruct (callback argument) as [signed | caught |]; try reflexivity.
    destruct (get_property caught "message"); reflexivity.
  - left. rewrite (software_signTransaction_not_called _ _ _ _ Hvalid Harg).
    destruct (get_property caught "message"); reflexivity.
Qed.

(** When the callback throws a string, [signTransaction] still rejects with
    a cannot-sign error, but the string is lost: a string has no [message],
    and the text ends in [undefined]. *)
Theorem software_signTransaction_thrown_string callback transactionObject
    validated argument (thrown : string) :
  Software.transactionObjectValidator transactionObject = Normal validated →
  Software.callbackArgument validated = Normal argument →
  callback argument = Rejected (VStr thrown) →
  Software.signTransaction callback transactionObject
    = ([Callback argument],
       Rejected (new_Error (Software.messages_cannotSign +:+ " "
                              +:+ Software.objectToErrorString
                                    transactionObject
                              +:+ " undefined"))).
Proof.
  intros Hvalid Harg Hthrows.
  now rewrite (software_signTransaction_called _ _ _ _ Hvalid Harg), Hthrows.
Qed.

(** What the callback is handed.  With the validator's field set and its
    three amounts made big numbers by [bigNumberify] of their decimal text
    and its recipient normalized, [signTransaction] calls the callback once,
    with an object of exactly the seven properties [gasPrice], [gasLimit],
    [chainId], [nonce], [to], [value] and [data]: chain id and nonce are the
    validated numbers, and the input data, normalized, goes under [data],
    not [inputData].  What the callback answers to that object decides the
    result. *)
Theorem software_signTransaction_callback_argument callback transactionObject
    validated gasPrice gasLimit to value :
  Software.transactionObjectValidator transactionObject = Normal validated →
  Software.bigNumberify (pretty (Software.gasPrice validated))
    = Normal gasPrice →
  Software.bigNumberify (pretty (Software.gasLimit validated))
    = Normal gasLimit →
  Software.addressNormalizer (Software.to validated) = Normal to →
  Software.bigNumberify (pretty (Software.value validated)) = Normal value →
  let argument : gmap string jsval :=
    {[ "gasPrice" := gasPrice;
       "gasLimit" := gasLimit;
       "chainId" := VNum (Software.chainId validated);
       "nonce" := VNum (Software.nonce validated);
       "to" := VStr to;
       "value" := value;
       "data" := VStr (hexSequenceNormalizer (Software.inputData validated)) ]}
  in
  trace (Software.signTransaction callback transactionObject)
    = [Callback argument]
  ∧ dom argument
      = ({[ "gasPrice"; "gasLimit"; "chainId"; "nonce"; "to"; "value";
            "data" ]} : gset string)
  ∧ argument !! "inputData" = None
  ∧ (∀ signedTransaction,
       callback argument = Fulfilled signedTransaction →
       result (Software.signTransaction callback transactionObject)
         = Fulfilled (hexSequenceNormalizer signedTransaction)).
Proof.
  intros Hvalid HgasPrice HgasLimit Hto Hvalue argument.
  assert (Software.callbackArgument validated = Normal argument) as Harg.
  { unfold Software.callbackArgument.
    rewrite HgasPrice. async_run. rewrite HgasLimit. async_run.
    rewrite Hto. async_run. rewrite Hvalue. reflexivity. }
  rewrite (software_signTransaction_called _ _ _ _ Hvalid Harg).
  split; [| split; [| split]].
  - destruct (callback argument) as [signed | caught |]; try reflexivity.
    destruct (get_property caught "message"); reflexivity.
  - unfold argument. rewrite !dom_insert_L, dom_singleton_L. set_solver.
  - reflexivity.
  - intros signedTransaction ->. reflexivity.
Qed.

End SoftwareSignTransaction.

(** ** The software wallet: [signMessage] *)

Section SoftwareSignMessage.
Context `{SoftwareMessage.Imports}.

(** When [messageValidator] throws, [signMessage] rejects with its error as
    it is and the callback is not called. *)
Theorem software_signMessage_invalid callback message e :
  SoftwareMessage.messageValidator message = Throw e →
  SoftwareMessage.signMessage callback message = ([], Rejected e).
Proof.
  intros Hinvalid. unfold SoftwareMessage.signMessage. now rewrite Hinvalid.
Qed.

(** When the callback throws an error, [signMessage] rejects with one new
    error whose text is the cannot-sign-message prefix, the message that was
    to be signed and the text of the original error, and so contains each of
    them. *)
Theorem software_signMessage_wraps_callback_error callback (message : string)
    (caughtMessage : string) :
  SoftwareMessage.messageValidator (VStr message) = Normal tt →
  callback (VStr message) = Throw (new_Error caughtMessage) →
  let wrapped :=
    SoftwareMessage.messages_cannotSignMessage +:+ ": " +:+ message
      +:+ " Error: " +:+ caughtMessage in
  SoftwareMessage.signMessage callback (VStr message)
    = ([VStr message], Rejected (new_Error wrapped))
  ∧ contains SoftwareMessage.messages_cannotSignMessage wrapped
  ∧ contains message wrapped
  ∧ contains caughtMessage wrapped.
Proof.
  intros Hvalid Hthrows wrapped. unfold SoftwareMessage.signMessage.
  rewrite Hvalid, Hthrows. repeat split.
  - apply contains_head.
  - do 2 apply contains_skip. apply contains_head.
  - do 4 apply contains_skip. apply contains_refl.
Qed.

(** [signMessage] calls the callback at most once, with the message itself,
    and only when the validator has accepted it; when it resolves, the
    result is the callback's signature through the hex-sequence
    normalizer. *)
Theorem software_signMessage_calls callback message :
  (fst (SoftwareMessage.signMessage callback message) = []
   ∨ (SoftwareMessage.messageValidator message = Normal tt
      ∧ fst (SoftwareMessage.signMessage callback message) = [message]))
  ∧ ∀ signature,
      snd (SoftwareMessage.signMessage callback message)
        = Fulfilled signature →
      ∃ messageSignature,
        callback message = Normal messageSignature
        ∧ signature = hexSequenceNormalizer messageSignature.
Proof.
  unfold SoftwareMessage.signMessage.
  destruct (SoftwareMessage.messageValidator message) as [[] | e];
    [| split; [now left | discriminate]].
  destruct (callback message) as [messageSignature | caught].
  - split; [now right |]. intros signature [= <-]. now exists messageSignature.
  - destruct (get_property caught "message");
      (split; [now right | discriminate]).
Qed.

End SoftwareSignMessage.

(** ** The statements above, run on the stand-ins *)

Lemma hardware_signTransaction_returns_response_witness :
  @Hardware.signTransaction
    (Mock.hardware (Mock.answers {[ "r" := VStr "1b"; "s" := VStr "2c";
                                     "v" := VNum 37 ]}))
    Mock.transaction
    = ([PayloadListener Mock.transactionPayload],
       Fulfilled (VObj {[ "r" := VStr "1b"; "s" := VStr "2c";
                          "v" := VNum 37 ]})).
Proof.
  apply (@hardware_signTransaction_returns_response
           (Mock.hardware (Mock.answers _)) Mock.transaction
           Mock.transactionPayload);
    reflexivity.
Defined.

Lemma hardware_signTransaction_warns_iff_cancelled_witness :
  result (@Hardware.signTransaction (Mock.hardware Mock.userCancels)
            Mock.transaction)
    = Fulfilled VUndefined
  ∧ Warning "User cancelled signing the transaction"
      ∈ trace (@Hardware.signTransaction (Mock.hardware Mock.userCancels)
                 Mock.transaction).
Proof.
  destruct (@hardware_signTransaction_warns_iff_cancelled
              (Mock.hardware Mock.userCancels) Mock.transaction
              Mock.transactionPayload (new_Error Mock.cancelled)
              (VStr Mock.cancelled) eq_refl eq_refl eq_refl eq_refl)
    as [Hresult Hwarns].
  split; [exact Hresult |]. apply Hwarns. reflexivity.
Defined.

Lemma hardware_signTransaction_rejects_iff_nullish_witness :
  ∃ e,
    result (@Hardware.signTransaction
              (Mock.hardware MockMore.rejectsUndefined) Mock.transaction)
      = Rejected e.
Proof.
  apply (@hardware_signTransaction_rejects_iff_nullish
           (Mock.hardware MockMore.rejectsUndefined) Mock.transaction
           Mock.transactionPayload eq_refl eq_refl).
  left. reflexivity.
Defined.

Lemma hardware_signTransaction_calls_witness :
  trace (@Hardware.signTransaction (Mock.hardware Mock.disconnected)
           Mock.transaction) = []
  ∨ ∃ payload,
      @Hardware.modifiedPayloadObject (Mock.hardware Mock.disconnected)
        Mock.transaction = Normal payload
      ∧ (trace (@Hardware.signTransaction (Mock.hardware Mock.disconnected)
                  Mock.transaction)
           = [PayloadListener payload]
         ∨ trace (@Hardware.signTransaction
                    (Mock.hardware Mock.disconnected) Mock.transaction)
             = [PayloadListener payload;
                Warning "User cancelled signing the transaction"]).
Proof.
  exact (@hardware_signTransaction_calls (Mock.hardware Mock.disconnected)
           Mock.transaction).
Defined.

Lemma hardware_signTransaction_build_failure_witness :
  @Hardware.signTransaction (MockMore.laxHardware Mock.userCancels)
    (<["path" := VStr "m/0"]> Mock.transaction)
    = ([], Rejected (new_Error "Not a valid path")).
Proof.
  apply (@hardware_signTransaction_build_failure
           (MockMore.laxHardware Mock.userCancels));
    reflexivity.
Defined.

Lemma hardware_signTransaction_ignores_other_properties_witness :
  @Hardware.signTransaction (Mock.hardware Mock.userCancels)
    (<["callback" := VStr "sign"]> Mock.transaction)
    = @Hardware.signTransaction (Mock.hardware Mock.userCancels)
        Mock.transaction.
Proof.
  apply (@hardware_signTransaction_ignores_other_properties
           (Mock.hardware Mock.userCancels)).
  compute_done.
Defined.

Lemma hardware_signMessage_response_witness :
  @Hardware.signMessage
    (Mock.hardware (Mock.answers {[ "signature" := VStr "c2ln" ]}))
    Mock.message
    = ([PayloadListener Mock.messagePayload], Fulfilled (VStr "c2ln")).
Proof.
  apply (proj1 (@hardware_signMessage_response
                  (Mock.hardware (Mock.answers _)) Mock.message
                  Mock.messagePayload _ eq_refl eq_refl eq_refl)
           {[ "signature" := VStr "c2ln" ]});
    reflexivity.
Defined.

Lemma hardware_signMessage_before_dispatch_witness :
  @Hardware.signMessage (Mock.hardware Mock.userCancels)
    (delete "path" Mock.message)
    = ([], Rejected (new_Error "Derivation path is not valid")).
Proof.
  apply (@hardware_signMessage_before_dispatch
           (Mock.hardware Mock.userCancels)).
  left. reflexivity.
Defined.

Lemma hardware_signMessage_payload_witness :
  ∃ payload,
    trace (@Hardware.signMessage (Mock.hardware Mock.userCancels)
             Mock.message)
      = [PayloadListener payload]
    ∧ payload !! "path" = Some (VArr Mock.pathArray)
    ∧ payload !! "message" = Some (VStr "hello").
Proof.
  destruct (@hardware_signMessage_payload (Mock.hardware Mock.userCancels)
              Mock.message Mock.pathArray eq_refl eq_refl)
    as (payload & Htrace & Hpath & Hmessage & _).
  exists payload. repeat split; assumption.
Defined.

Lemma hardware_verifyMessage_invalid_address_witness :
  @Hardware.verifyMessage (Mock.hardware Mock.userCancels)
    (delete "address" Mock.message)
    = ([], Rejected (new_Error "invalid address")).
Proof.
  apply (@hardware_verifyMessage_invalid_address
           (Mock.hardware Mock.userCancels)).
  reflexivity.
Defined.

Lemma hardware_verifyMessage_propagates_rejection_witness :
  result (@Hardware.verifyMessage (Mock.hardware Mock.disconnected)
            Mock.message)
    = Rejected (new_Error "Device disconnected").
Proof.
  rewrite (@hardware_verifyMessage_propagates_rejection
             (Mock.hardware Mock.disconnected) Mock.message
             "0x3953cF4eA75a62c6fCD0b3988b1984265006a4CC"
             (new_Error "Device disconnected") eq_refl eq_refl).
  reflexivity.
Defined.

Lemma hardware_verifyMessage_verdict_from_device_witness :
  ∃ response,
    get_property response "success" = Normal (VBool false).
Proof.
  assert (result (@Hardware.verifyMessage
                    (Mock.hardware
                       (Mock.answers {[ "success" := VBool false ]}))
                    Mock.message)
          = Fulfilled (VBool false)) as Hresolves
    by reflexivity.
  destruct (@hardware_verifyMessage_verdict_from_device
              (Mock.hardware (Mock.answers {[ "success" := VBool false ]}))
              Mock.message (VBool false) Hresolves)
    as (validatedAddress & response & _ & _ & Hsuccess & _).
  exists response. exact Hsuccess.
Defined.

Lemma hardware_verifyMessage_malformed_response_witness :
  result (@Hardware.verifyMessage
            (Mock.hardware MockMore.answersUndefined) Mock.message)
    = Rejected (TypeError_nullish "success").
Proof.
  apply (@hardware_verifyMessage_malformed_response
           (Mock.hardware MockMore.answersUndefined) Mock.message
           "0x3953cF4eA75a62c6fCD0b3988b1984265006a4CC" VUndefined
           eq_refl eq_refl).
  left. reflexivity.
Defined.

Lemma hardware_verifyMessage_payload_witness :
  ∃ payload,
    trace (@Hardware.verifyMessage (Mock.hardware Mock.disconnected)
             Mock.message)
      = [PayloadListener payload]
    ∧ payload !! "message" = Some (VStr "hello")
    ∧ payload !! "signature" = Some (VStr "c2lnbmF0dXJl")
    ∧ payload !! "type" = Some (VStr "verifymsg").
Proof.
  destruct (@hardware_verifyMessage_payload (Mock.hardware Mock.disconnected)
              Mock.message "0x3953cF4eA75a62c6fCD0b3988b1984265006a4CC"
              eq_refl)
    as (payload & Htrace & Hmessage & Hsignature & Hother).
  exists payload. repeat split; try assumption.
  rewrite Hother; [reflexivity | compute_done].
Defined.

Lemma strip_0x_exact_witness :
  "0x" +:+ strip_0x "0xAb12" = "0xAb12" ∧ strip_0x "0XAb12" = "0XAb12".
Proof.
  split; [| exact (proj2 (strip_0x_exact "Ab12"))].
  destruct (proj1 (strip_0x_exact "0xAb12")) as [[Hnone _] | (_ & Hback & _)];
    [now contradiction Hnone | exact Hback].
Defined.

Lemma software_signTransaction_invalid_witness :
  @Software.signTransaction MockMore.refusing Mock.signs ∅
    = ([], Rejected (new_Error "Transaction is not valid")).
Proof.
  apply (@software_signTransaction_invalid MockMore.refusing). reflexivity.
Defined.

Lemma software_signTransaction_helper_failure_witness :
  @Software.signTransaction MockMore.badAddress Mock.signs ∅
    = ([], Rejected (new_Error
                       "Cannot sign the transaction {} Address is not valid")).
Proof.
  apply (@software_signTransaction_helper_failure MockMore.badAddress
           Mock.signs ∅ Mock.validated "Address is not valid");
    reflexivity.
Defined.

Lemma software_signTransaction_rejections_witness :
  (∃ caughtMessage,
     new_Error "Cannot sign the transaction {chainId: 1} boom"
       = new_Error ("Cannot sign the transaction" +:+ " " +:+ "{chainId: 1}"
                      +:+ " " +:+ template_string caughtMessage))
  ∨ new_Error "Cannot sign the transaction {chainId: 1} boom"
      = TypeError_nullish "message".
Proof.
  exact (@software_signTransaction_rejections Mock.software Mock.boom ∅
           Mock.validated _ eq_refl eq_refl).
Defined.

Lemma software_signTransaction_calls_witness :
  trace (@Software.signTransaction MockMore.badAddress Mock.signs ∅) = []
  ∨ ∃ validated argument,
      @Software.transactionObjectValidator MockMore.badAddress ∅
        = Normal validated
      ∧ @Software.callbackArgument MockMore.badAddress validated
          = Normal argument
      ∧ trace (@Software.signTransaction MockMore.badAddress Mock.signs ∅)
          = [Callback argument].
Proof.
  exact (@software_signTransaction_calls MockMore.badAddress Mock.signs ∅).
Defined.

Lemma software_signTransaction_thrown_string_witness :
  result (@Software.signTransaction Mock.software MockMore.throwsString ∅)
    = Rejected (new_Error "Cannot sign the transaction {chainId: 1} undefined").
Proof.
  rewrite (@software_signTransaction_thrown_string Mock.software
             MockMore.throwsString ∅ Mock.validated _ "boom"
             eq_refl eq_refl eq_refl).
  reflexivity.
Defined.

Lemma software_signTransaction_callback_argument_witness :
  trace (@Software.signTransaction Mock.software Mock.signs ∅)
    = [Callback {[ "gasPrice" := VStr "9000000000";
                   "gasLimit" := VStr "21000";
                   "chainId" := VNum 1;
                   "nonce" := VNum 0;
                   "to" := VStr "0x3953cF4eA75a62c6fCD0b3988b1984265006a4CC";
                   "value" := VStr "1";
                   "data" := VStr "0x00" ]}].
Proof.
  exact (proj1 (@software_signTransaction_callback_argument Mock.software
                  Mock.signs ∅ Mock.validated _ _ _ _
                  eq_refl eq_refl eq_refl eq_refl eq_refl)).
Defined.

Lemma software_signMessage_invalid_witness :
  @SoftwareMessage.signMessage MockMore.message MockMore.signsMessage
    (VStr "")
    = ([], Rejected (new_Error "Message is empty")).
Proof.
  apply (@software_signMessage_invalid MockMore.message). reflexivity.
Defined.

Lemma software_signMessage_wraps_callback_error_witness :
  @SoftwareMessage.signMessage MockMore.message MockMore.failsMessage
    (VStr "hello")
    = ([VStr "hello"],
       Rejected (new_Error "Cannot sign the message: hello Error: boom")).
Proof.
  apply (@software_signMessage_wraps_callback_error MockMore.message
           MockMore.failsMessage "hello" "boom");
    reflexivity.
Defined.

Lemma software_signMessage_calls_witness :
  ∃ messageSignature,
    MockMore.signsMessage (VStr "hello") = Normal messageSignature
    ∧ "0x0abc" = hexSequenceNormalizer messageSignature.
Proof.
  exact (proj2 (@software_signMessage_calls MockMore.message
                  MockMore.signsMessage (VStr "hello"))
           "0x0abc" eq_refl).
Defined.
